(** * The node orchestration layer of idena-go ([node/node.go])

    [node.go] builds the components of a node ([NewNode]), starts them in
    a fixed order ([Node.Start]) and exposes them over RPC ([Node.apis],
    [Node.startHTTP], [Node.stopHTTP]).  Everything it does is a call
    into another package, so the embedding is a call trace: every
    external call appends an event made of the call, with its actual
    arguments, and of the value it returned.  Objects of other packages
    are references; the outcome of an external call that can fail or
    that reads the outside world is taken from an environment, which may
    answer differently at every point of the history.  [WaitForStop],
    which only blocks on a channel, is left out. *)

From stdpp Require Import base list strings.
From Stdlib Require Import ZArith NArith Lia.

Local Open Scope string_scope.
Local Open Scope list_scope.

(** ** References and plain data *)

(** A Go pointer or interface value: [nil] is the null reference, every
    allocated object has a positive address. *)
Definition Ref := N.
Definition nil : Ref := 0%N.

(** Go's [error] interface is [option error]: [None] is the nil error. *)
Record error := { Error : string }.

(** [common.Hash]. *)
Definition Hash := N.

(** Go's [int] (64 bits, two's complement). *)
Definition int (z : Z) : Z := ((z + 2 ^ 63) mod 2 ^ 64 - 2 ^ 63)%Z.

(** goleveldb's [opt.MiB] ([KiB = 1024], [MiB = KiB * 1024]). *)
Definition MiB : Z := 1048576%Z.

Inductive Filter := NewBloomFilter (bitsPerKey : Z).

(** The fields of [opt.Options] that [OpenDatabase] sets. *)
Record Options := {
  OpenFilesCacheCapacity : Z;
  BlockCacheCapacity : Z;
  WriteBuffer : Z;
  Filter_ : Filter
}.

(** Method values taken in [Start]. *)
Inductive Func :=
| HandleNewPeer (pm : Ref)
| ApplyNewEpoch (ceremony : Ref).

Record Protocol := {
  Name : string;
  Version_ : N;
  Run : Func;
  Length : N
}.

(** [p2p.Config]: the two fields [Start] writes, the rest kept opaque. *)
Record P2PConfig := {
  Protocols : list Protocol;
  PrivateKey : Ref;
  p2p_rest : N
}.

Record RPCConfig := {
  HTTPModules : list string;
  HTTPCors : list string;
  HTTPVirtualHosts : list string;
  HTTPTimeouts : N;
  rpc_rest : N
}.

(** [config.Config]: the fields [node.go] reads.  [P2P] is a pointer in
    the source and [Start] writes through it; the pointee is kept here
    by value, inside the node's [config]. *)
Record Config := {
  DataDir : string;
  P2P : P2PConfig;
  Consensus : Ref;
  IpfsConf : Ref;
  RPC : RPCConfig;
  cfg_rest : N
}.

(** [rpc.API]. *)
Record API := {
  Namespace : string;
  Version : string;
  Service : Ref;
  Public : bool
}.

(** The log handlers composed in [StartDefaultNode]. *)
Inductive Format := TerminalFormat (usecolor : bool) | LogfmtFormat.
Inductive Lvl := LvlInfo.
Inductive Handler :=
| HandlerRef (h : Ref)
| StreamHandler_Stdout (f : Format)
| MultiHandler (h1 h2 : Handler)
| LvlFilterHandler (l : Lvl) (h : Handler).

(** ** The call trace *)

(** One constructor per external call site of [node.go], and one,
    [Server_lit], for the [p2p.Server] literal that [Start] allocates. *)
Inductive Call :=
(* StartDefaultNode *)
| FileHandler (path : string) (f : Format)
| Root_SetHandler (h : Handler)
(* OpenDatabase *)
| NewGoLevelDBWithOpts (name dir : string) (o : Options)
(* NewNode *)
| KeyStoreDataDir (c : Config)
| NewIpfsProxy (conf : Ref)
| eventbus_New
| NewKeyStore (keyStoreDir : string) (scryptN scryptP : Z)
| NewSecStore
| NewAppState (db bus : Ref)
| NewVotes (appState : Ref)
| NewTxPool (appState bus : Ref)
| NewKeysPool (appState bus : Ref)
| NewBlockchain (c : Config) (db txpool appState ipfsProxy secStore bus : Ref)
| NewProposals (chain : Ref)
| NewFlipper (db ipfsProxy flipKeyPool txpool secStore appState : Ref)
| NetProtocolManager (chain proposals votes txpool flipper bus flipKeyPool : Ref)
    (p2p : P2PConfig)
| NewDownloader (pm chain ipfsProxy appState : Ref)
| NewEngine (chain pm proposals consensus appState votes txpool secStore
    downloader : Ref)
| NewValidationCeremony (appState bus flipper pm secStore db txpool chain
    downloader : Ref)
| log_New
(* Start *)
| NodeKey (c : Config)
| Server_lit (cfg : P2PConfig)
| SecStore_AddKey (secStore : Ref) (key : list Byte.byte)
| InitializeChain (chain : Ref)
| AppState_Initialize (appState : Ref) (height : N)
| TxPool_Initialize (txpool head : Ref)
| KeysPool_Initialize (flipKeyPool head : Ref)
| Flipper_Initialize (fp : Ref)
| GetBlock (chain : Ref) (hash : Hash)
| Ceremony_Initialize (ceremony block : Ref)
| ProvideApplyNewEpochFunc (chain : Ref) (f : Func)
| Engine_Start (engine : Ref)
| Server_Start (srv : Ref)
| Pm_Start (pm : Ref)
| log_Error (logger : Ref) (msg : string) (ctx : list string)
| log_Info (logger : Ref) (msg : string) (ctx : list string)
(* startHTTP, stopHTTP *)
| StartHTTPEndpoint (endpoint : string) (apis : list API)
    (modules cors vhosts : list string) (timeouts : N)
| Listener_Close (l : Ref)
| Handler_Stop (h : Ref)
(* apis *)
| NewBaseApi (engine txpool keyStore secStore : Ref)
| NewNetApi (pm srv ipfsProxy : Ref)
| NewDnaApi (baseApi chain : Ref)
| NewAccountApi (baseApi : Ref)
| NewFlipApi (baseApi fp pm ipfsProxy ceremony : Ref)
| NewBlockchainApi (baseApi chain ipfsProxy txpool downloader pm : Ref).

(** What a call returned. *)
Inductive Val :=
| VUnit
| VRef (r : Ref)
| VRefErr (r : Ref) (err : option error)
| VStrErr (s : string) (err : option error)
| VHttp (listener handler : Ref) (err : option error).

Inductive Event := Ev (c : Call) (v : Val).
Notation "c ↦ v" := (Ev c v) (at level 65, no associativity).

(** ** The environment *)

(** Code and constants of other packages whose result [node.go] depends
    on.  The effectful ones answer from the history of the calls made so
    far (newest first), so nothing is assumed about two calls of the same
    function returning the same value. *)
Record Env := {
  (* path/filepath *)
  Join : string -> string -> string;
  (* package config *)
  DefaultPort : Z;
  DefaultRpcHost : string;
  DefaultRpcPort : Z;
  DefaultBootnode : string;
  DefaultIpfsPort : Z;
  DefaultNoDiscovery : bool;
  GetDefaultConfig :
    string -> Z -> bool -> string -> Z -> string -> string -> Z -> bool ->
    string -> Z -> Z -> Config;
  KeyStoreDataDir_ret : list Event -> Config -> string * option error;
  NodeKey_ret : list Event -> Config -> Ref;
  HTTPEndpoint : RPCConfig -> string;
  (* package keystore *)
  StandardScryptN : Z;
  StandardScryptP : Z;
  (* package log *)
  FileHandler_err : list Event -> string -> Format -> option error;
  (* tendermint db *)
  NewGoLevelDBWithOpts_err :
    list Event -> string -> string -> Options -> option error;
  (* package ipfs *)
  NewIpfsProxy_err : list Event -> Ref -> option error;
  (* package crypto *)
  FromECDSA : Ref -> list Byte.byte;
  (* package blockchain: the head [InitializeChain] leaves in
     [Blockchain.Head] and its error; the accessors of a block *)
  InitializeChain_ret : list Event -> Ref -> Ref * option error;
  Height : Ref -> N;
  Hash_ : Ref -> Hash;
  GetBlock_ret : list Event -> Ref -> Hash -> Ref;
  (* package rpc *)
  StartHTTPEndpoint_err :
    list Event -> string -> list API -> list string -> list string ->
    list string -> N -> option error
}.

(** ** The world and the monad *)

(** [history] is the trace so far, newest event first; [next] the next
    free address; [Head] the [Head] field of every blockchain object.
    [Head] is written by [InitializeChain] only: none of the other calls
    [Start] makes before the engine runs is taken to move the head. *)
Record World := {
  history : list Event;
  next : positive;
  Head : Ref -> Ref
}.

Definition M (A : Type) : Type := World -> A * World.

#[global] Instance M_ret : MRet M := fun A a w => (a, w).

#[global] Instance M_bind : MBind M :=
  fun A B k m w => let (a, w1) := m w in k a w1.

(** Append an event to the trace. *)
Definition emit (e : Event) : M unit :=
  fun w => (tt, {| history := e :: history w; next := next w; Head := Head w |}).

(** A fresh, non-nil address. *)
Definition alloc : M Ref :=
  fun w => (Npos (next w),
            {| history := history w; next := Pos.succ (next w); Head := Head w |}).

(** Ask the environment, showing it the history. *)
Definition consult {A} (f : list Event -> A) : M A :=
  fun w => (f (history w), w).

(** A call for its effect only. *)
Definition perform (c : Call) : M unit := emit (c ↦ VUnit).

(** A constructor of another package: returns a new object. *)
Definition construct (c : Call) : M Ref :=
  r ← alloc; emit (c ↦ VRef r);; mret r.

(** A constructor that can fail: [(nil, err)] or [(object, nil)]. *)
Definition construct_err (c : Call) (f : list Event -> option error)
  : M (Ref * option error) :=
  err ← consult f;
  match err with
  | Some e => emit (c ↦ VRefErr nil (Some e));; mret (nil, Some e)
  | None => r ← alloc; emit (c ↦ VRefErr r None);; mret (r, None)
  end.

(** Early return on a Go error:
    [x, err := m; if err != nil { return nil, err }]. *)
Notation "'check' x ← m ; k" :=
  (mbind (fun p => match snd p with
                   | Some e => mret (inl e)
                   | None => (fun x => k) (fst p)
                   end) m)
  (at level 20, x name, m at level 100, k at level 200,
   only parsing, right associativity) : stdpp_scope.

(** The events a computation appends, oldest first. *)
Definition emitted (w w' : World) : list Event :=
  rev (take (length (history w') - length (history w)) (history w')).

Definition trace_of {A} (m : M A) (w : World) : list Event :=
  emitted w (snd (m w)).

(** ** The node *)

(** [type Node struct]. *)
Record Node := {
  config : Config;
  blockchain : Ref;
  appState : Ref;
  secStore : Ref;
  pm : Ref;
  stop : Ref;
  proposals : Ref;
  votes : Ref;
  consensusEngine : Ref;
  txpool : Ref;
  flipKeyPool : Ref;
  rpcAPIs : list API;
  httpListener : Ref;
  httpHandler : Ref;
  log : Ref;
  srv : Ref;
  keyStore : Ref;
  fp : Ref;
  ipfsProxy : Ref;
  bus : Ref;
  ceremony : Ref;
  downloader : Ref
}.

(** Assignments to the fields that [node.go] writes after construction. *)
Definition set_config (n : Node) (c : Config) : Node :=
  {| config := c; blockchain := blockchain n; appState := appState n;
     secStore := secStore n; pm := pm n; stop := stop n;
     proposals := proposals n; votes := votes n;
     consensusEngine := consensusEngine n; txpool := txpool n;
     flipKeyPool := flipKeyPool n; rpcAPIs := rpcAPIs n;
     httpListener := httpListener n; httpHandler := httpHandler n;
     log := log n; srv := srv n; keyStore := keyStore n; fp := fp n;
     ipfsProxy := ipfsProxy n; bus := bus n; ceremony := ceremony n;
     downloader := downloader n |}.

Definition set_srv (n : Node) (s : Ref) : Node :=
  {| config := config n; blockchain := blockchain n; appState := appState n;
     secStore := secStore n; pm := pm n; stop := stop n;
     proposals := proposals n; votes := votes n;
     consensusEngine := consensusEngine n; txpool := txpool n;
     flipKeyPool := flipKeyPool n; rpcAPIs := rpcAPIs n;
     httpListener := httpListener n; httpHandler := httpHandler n;
     log := log n; srv := s; keyStore := keyStore n; fp := fp n;
     ipfsProxy := ipfsProxy n; bus := bus n; ceremony := ceremony n;
     downloader := downloader n |}.

Definition set_rpcAPIs (n : Node) (a : list API) : Node :=
  {| config := config n; blockchain := blockchain n; appState := appState n;
     secStore := secStore n; pm := pm n; stop := stop n;
     proposals := proposals n; votes := votes n;
     consensusEngine := consensusEngine n; txpool := txpool n;
     flipKeyPool := flipKeyPool n; rpcAPIs := a;
     httpListener := httpListener n; httpHandler := httpHandler n;
     log := log n; srv := srv n; keyStore := keyStore n; fp := fp n;
     ipfsProxy := ipfsProxy n; bus := bus n; ceremony := ceremony n;
     downloader := downloader n |}.

Definition set_httpListener (n : Node) (l : Ref) : Node :=
  {| config := config n; blockchain := blockchain n; appState := appState n;
     secStore := secStore n; pm := pm n; stop := stop n;
     proposals := proposals n; votes := votes n;
     consensusEngine := consensusEngine n; txpool := txpool n;
     flipKeyPool := flipKeyPool n; rpcAPIs := rpcAPIs n;
     httpListener := l; httpHandler := httpHandler n;
     log := log n; srv := srv n; keyStore := keyStore n; fp := fp n;
     ipfsProxy := ipfsProxy n; bus := bus n; ceremony := ceremony n;
     downloader := downloader n |}.

Definition set_httpHandler (n : Node) (h : Ref) : Node :=
  {| config := config n; blockchain := blockchain n; appState := appState n;
     secStore := secStore n; pm := pm n; stop := stop n;
     proposals := proposals n; votes := votes n;
     consensusEngine := consensusEngine n; txpool := txpool n;
     flipKeyPool := flipKeyPool n; rpcAPIs := rpcAPIs n;
     httpListener := httpListener n; httpHandler := h;
     log := log n; srv := srv n; keyStore := keyStore n; fp := fp n;
     ipfsProxy := ipfsProxy n; bus := bus n; ceremony := ceremony n;
     downloader := downloader n |}.

(** Writes through the [config.P2P] pointer. *)
Definition set_P2P (c : Config) (p : P2PConfig) : Config :=
  {| DataDir := DataDir c; P2P := p; Consensus := Consensus c;
     IpfsConf := IpfsConf c; RPC := RPC c; cfg_rest := cfg_rest c |}.

Definition set_Protocols (p : P2PConfig) (l : list Protocol) : P2PConfig :=
  {| Protocols := l; PrivateKey := PrivateKey p; p2p_rest := p2p_rest p |}.

Definition set_PrivateKey (p : P2PConfig) (k : Ref) : P2PConfig :=
  {| Protocols := Protocols p; PrivateKey := k; p2p_rest := p2p_rest p |}.

Section WithEnv.

Context (env : Env).

(** *** Calls into other packages *)

(** [config.KeyStoreDataDir()]. *)
Definition config_KeyStoreDataDir (c : Config) : M (string * option error) :=
  r ← consult (fun h => KeyStoreDataDir_ret env h c);
  emit (KeyStoreDataDir c ↦ VStrErr (fst r) (snd r));;
  mret r.

(** [config.NodeKey()]. *)
Definition config_NodeKey (c : Config) : M Ref :=
  k ← consult (fun h => NodeKey_ret env h c);
  emit (NodeKey c ↦ VRef k);;
  mret k.

(** [chain.InitializeChain()]: leaves a head in [chain.Head] and returns
    an error or nil. *)
Definition blockchain_InitializeChain (chain : Ref) : M (option error) :=
  fun w =>
    let (head, err) := InitializeChain_ret env (history w) chain in
    (err,
     {| history := (InitializeChain chain ↦ VRefErr head err) :: history w;
        next := next w;
        Head := fun c => if N.eqb c chain then head else Head w c |}).

(** Reading the field [chain.Head]. *)
Definition blockchain_Head (chain : Ref) : M Ref :=
  fun w => (Head w chain, w).

(** [chain.GetBlock(hash)]. *)
Definition blockchain_GetBlock (chain : Ref) (hash : Hash) : M Ref :=
  b ← consult (fun h => GetBlock_ret env h chain hash);
  emit (GetBlock chain hash ↦ VRef b);;
  mret b.

(** [rpc.StartHTTPEndpoint]: a listener and a handler, or an error. *)
Definition rpc_StartHTTPEndpoint (endpoint : string) (apis : list API)
    (modules cors vhosts : list string) (timeouts : N)
  : M (Ref * Ref * option error) :=
  let c := StartHTTPEndpoint endpoint apis modules cors vhosts timeouts in
  err ← consult (fun h =>
    StartHTTPEndpoint_err env h endpoint apis modules cors vhosts timeouts);
  match err with
  | Some e => emit (c ↦ VHttp nil nil (Some e));; mret (nil, nil, Some e)
  | None =>
      listener ← alloc;
      handler ← alloc;
      emit (c ↦ VHttp listener handler None);;
      mret (listener, handler, None)
  end.

(** *** [OpenDatabase] *)

Definition OpenDatabase (c : Config) (name : string) (cache handles : Z)
  : M (Ref * option error) :=
  let o := {| OpenFilesCacheCapacity := handles;
              BlockCacheCapacity := int (Z.quot cache 2 * MiB);
              WriteBuffer := int (Z.quot cache 4 * MiB);
              Filter_ := NewBloomFilter 10 |} in
  construct_err (NewGoLevelDBWithOpts name (DataDir c) o)
    (fun h => NewGoLevelDBWithOpts_err env h name (DataDir c) o).

(** *** [NewNode] *)

Definition NewNode (config : Config) : M (error + Node) :=
  check db ← OpenDatabase config "idenachain" 16 16;
  check keyStoreDir ← config_KeyStoreDataDir config;
  check ipfsProxy ← construct_err (NewIpfsProxy (IpfsConf config))
                      (fun h => NewIpfsProxy_err env h (IpfsConf config));
  bus ← construct eventbus_New;
  keyStore ← construct (NewKeyStore keyStoreDir (StandardScryptN env)
                          (StandardScryptP env));
  secStore ← construct NewSecStore;
  appState ← construct (NewAppState db bus);
  votes ← construct (NewVotes appState);
  txpool ← construct (NewTxPool appState bus);
  flipKeyPool ← construct (NewKeysPool appState bus);
  chain ← construct (NewBlockchain config db txpool appState ipfsProxy
                       secStore bus);
  proposals ← construct (NewProposals chain);
  flipper ← construct (NewFlipper db ipfsProxy flipKeyPool txpool secStore
                         appState);
  pm ← construct (NetProtocolManager chain proposals votes txpool flipper bus
                    flipKeyPool (P2P config));
  downloader ← construct (NewDownloader pm chain ipfsProxy appState);
  consensusEngine ← construct (NewEngine chain pm proposals (Consensus config)
                                 appState votes txpool secStore downloader);
  ceremony ← construct (NewValidationCeremony appState bus flipper pm secStore
                          db txpool chain downloader);
  logger ← construct log_New;
  mret (inr {| config := config;
               blockchain := chain;
               pm := pm;
               proposals := proposals;
               appState := appState;
               consensusEngine := consensusEngine;
               txpool := txpool;
               log := logger;
               keyStore := keyStore;
               fp := flipper;
               ipfsProxy := ipfsProxy;
               secStore := secStore;
               bus := bus;
               flipKeyPool := flipKeyPool;
               ceremony := ceremony;
               downloader := downloader;
               (* not set by the literal: zero values *)
               stop := nil;
               votes := nil;
               rpcAPIs := [];
               httpListener := nil;
               httpHandler := nil;
               srv := nil |}).

(** *** [apis] *)

Definition apis (node : Node) : M (list API) :=
  baseApi ← construct (NewBaseApi (consensusEngine node) (txpool node)
                         (keyStore node) (secStore node));
  netApi ← construct (NewNetApi (pm node) (srv node) (ipfsProxy node));
  dnaApi ← construct (NewDnaApi baseApi (blockchain node));
  accountApi ← construct (NewAccountApi baseApi);
  flipApi ← construct (NewFlipApi baseApi (fp node) (pm node) (ipfsProxy node)
                         (ceremony node));
  blockchainApi ← construct (NewBlockchainApi baseApi (blockchain node)
                               (ipfsProxy node) (txpool node)
                               (downloader node) (pm node));
  mret [ {| Namespace := "net"; Version := "1.0";
            Service := netApi; Public := true |};
         {| Namespace := "dna"; Version := "1.0";
            Service := dnaApi; Public := true |};
         {| Namespace := "account"; Version := "1.0";
            Service := accountApi; Public := true |};
         {| Namespace := "flip"; Version := "1.0";
            Service := flipApi; Public := true |};
         {| Namespace := "bcn"; Version := "1.0";
            Service := blockchainApi; Public := true |} ].

(** *** [startHTTP], [stopHTTP], [startRPC] *)

Definition startHTTP (node : Node) (endpoint : string) (apis : list API)
    (modules cors vhosts : list string) (timeouts : N)
  : M (Node * option error) :=
  if decide (endpoint = "") then mret (node, None)
  else
    r ← rpc_StartHTTPEndpoint endpoint apis modules cors vhosts timeouts;
    let '(listener, handler, err) := r in
    match err with
    | Some e => mret (node, Some e)
    | None =>
        perform (log_Info (log node) "HTTP endpoint opened"
                   ["url"; "http://" +:+ endpoint;
                    "cors"; String.concat "," cors;
                    "vhosts"; String.concat "," vhosts]);;
        let node := set_httpListener node listener in
        let node := set_httpHandler node handler in
        mret (node, None)
    end.

Definition stopHTTP (node : Node) : M Node :=
  node ← (if decide (httpListener node ≠ nil) then
            perform (Listener_Close (httpListener node));;
            let node := set_httpListener node nil in
            perform (log_Info (log node) "HTTP endpoint closed"
                       ["url";
                        "http://" +:+ HTTPEndpoint env (RPC (config node))]);;
            mret node
          else mret node);
  if decide (httpHandler node ≠ nil) then
    perform (Handler_Stop (httpHandler node));;
    mret (set_httpHandler node nil)
  else mret node.

Definition startRPC (node : Node) : M (Node * option error) :=
  apis ← apis node;
  r ← startHTTP node (HTTPEndpoint env (RPC (config node))) apis
        (HTTPModules (RPC (config node))) (HTTPCors (RPC (config node)))
        (HTTPVirtualHosts (RPC (config node)))
        (HTTPTimeouts (RPC (config node)));
  let '(node, err) := r in
  match err with
  | Some e => mret (node, Some e)
  | None => mret (set_rpcAPIs node apis, None)
  end.

(** *** [Start] *)

Definition Start (node : Node) : M Node :=
  let p2pcfg := P2P (config node) in
  let p2pcfg := set_Protocols p2pcfg
                  [ {| Name := "AppName"; Version_ := 1;
                       Run := HandleNewPeer (pm node); Length := 35 |} ] in
  let node := set_config node (set_P2P (config node) p2pcfg) in
  key ← config_NodeKey (config node);
  let p2pcfg := set_PrivateKey p2pcfg key in
  let node := set_config node (set_P2P (config node) p2pcfg) in
  server ← construct (Server_lit p2pcfg);
  let node := set_srv node server in
  key ← config_NodeKey (config node);
  perform (SecStore_AddKey (secStore node) (FromECDSA env key));;
  err ← blockchain_InitializeChain (blockchain node);
  match err with
  | Some err =>
      perform (log_Error (log node) "Cannot initialize blockchain"
                 ["error"; Error err]);;
      mret node
  | None =>
      head ← blockchain_Head (blockchain node);
      perform (AppState_Initialize (appState node) (Height env head));;
      head ← blockchain_Head (blockchain node);
      perform (TxPool_Initialize (txpool node) head);;
      head ← blockchain_Head (blockchain node);
      perform (KeysPool_Initialize (flipKeyPool node) head);;
      perform (Flipper_Initialize (fp node));;
      head ← blockchain_Head (blockchain node);
      block ← blockchain_GetBlock (blockchain node) (Hash_ env head);
      perform (Ceremony_Initialize (ceremony node) block);;
      perform (ProvideApplyNewEpochFunc (blockchain node)
                 (ApplyNewEpoch (ceremony node)));;
      perform (Engine_Start (consensusEngine node));;
      perform (Server_Start (srv node));;
      perform (Pm_Start (pm node));;
      r ← startRPC node;
      let '(node, err) := r in
      match err with
      | Some err =>
          perform (log_Error (log node) "Cannot start RPC endpoint"
                     ["error"; Error err]);;
          mret node
      | None => mret node
      end
  end.

(** *** [StartDefaultNode] *)

Definition StartDefaultNode (path : string) : M string :=
  let file := Join env path "output.log" in
  r ← construct_err (FileHandler file (TerminalFormat false))
        (fun h => FileHandler_err env h file (TerminalFormat false));
  let fileHandler := fst r in
  perform (Root_SetHandler
             (LvlFilterHandler LvlInfo
                (MultiHandler (StreamHandler_Stdout LogfmtFormat)
                   (HandlerRef fileHandler))));;
  let c := GetDefaultConfig env
             path
             (DefaultPort env)
             false
             (DefaultRpcHost env)
             (DefaultRpcPort env)
             (DefaultBootnode env)
             ""
             (DefaultIpfsPort env)
             (DefaultNoDiscovery env)
             ""
             0%Z 0%Z in
  r ← NewNode c;
  match r with
  | inl err => mret (Error err)
  | inr n => Start n;; mret "done"
  end.

End WithEnv.

(** ** Reading a trace *)

(** The calls that initialise a component in [Start]. *)
Definition is_init (e : Event) : bool :=
  match e with
  | AppState_Initialize _ _ ↦ _ | TxPool_Initialize _ _ ↦ _
  | KeysPool_Initialize _ _ ↦ _ | Flipper_Initialize _ ↦ _
  | Ceremony_Initialize _ _ ↦ _ => true
  | _ => false
  end.

(** The calls that set a service running: the consensus engine, the p2p
    server, the protocol manager, the RPC endpoint. *)
Definition is_start (e : Event) : bool :=
  match e with
  | Engine_Start _ ↦ _ | Server_Start _ ↦ _ | Pm_Start _ ↦ _
  | StartHTTPEndpoint _ _ _ _ _ _ ↦ _ => true
  | _ => false
  end.

Definition is_open_database (e : Event) : bool :=
  match e with NewGoLevelDBWithOpts _ _ _ ↦ _ => true | _ => false end.

Definition is_StartHTTPEndpoint (e : Event) : bool :=
  match e with StartHTTPEndpoint _ _ _ _ _ _ ↦ _ => true | _ => false end.

Definition is_NewEngine (e : Event) : bool :=
  match e with NewEngine _ _ _ _ _ _ _ _ _ ↦ _ => true | _ => false end.

(** A component that takes one of the pools or the downloader. *)
Definition is_consumer (e : Event) : bool :=
  match e with
  | NetProtocolManager _ _ _ _ _ _ _ _ ↦ _ | NewDownloader _ _ _ _ ↦ _
  | NewEngine _ _ _ _ _ _ _ _ _ ↦ _
  | NewValidationCeremony _ _ _ _ _ _ _ _ _ ↦ _ => true
  | _ => false
  end.

(** A component that takes the database handle. *)
Definition takes_database (e : Event) : bool :=
  match e with
  | NewAppState _ _ ↦ _ | NewBlockchain _ _ _ _ _ _ _ ↦ _
  | NewFlipper _ _ _ _ _ _ ↦ _
  | NewValidationCeremony _ _ _ _ _ _ _ _ _ ↦ _ => true
  | _ => false
  end.

(** How many events of a trace satisfy [p]. *)
Definition count (p : Event -> bool) (tr : list Event) : nat :=
  length (List.filter p tr).

(** [a] occurs in [tr] and no event satisfying [p] occurs before it. *)
Definition occurs_before (a : Event) (p : Event -> bool) (tr : list Event)
  : Prop :=
  ∃ l1 l2, tr = l1 ++ a :: l2 ∧ forallb (fun e => negb (p e)) l1 = true.

(** The two facts the epoch hook is about, replayed along a trace: which
    function is installed as the epoch-apply hook of [chain], and whether
    an engine has been started. *)
Record Epoch := { hook : option Func; running : bool }.

Definition epoch_step (chain : Ref) (s : Epoch) (e : Event) : Epoch :=
  match e with
  | ProvideApplyNewEpochFunc c f ↦ _ =>
      if N.eqb c chain then {| hook := Some f; running := running s |} else s
  | Engine_Start _ ↦ _ => {| hook := hook s; running := true |}
  | _ => s
  end.

Definition epoch_after (chain : Ref) (tr : list Event) : Epoch :=
  fold_left (epoch_step chain) tr {| hook := None; running := false |}.

(** ** Sample inputs *)

Section Samples.

Local Open Scope N_scope.

Definition sample_config : Config :=
  {| DataDir := "/var/idena";
     P2P := {| Protocols := []; PrivateKey := nil; p2p_rest := 7 |};
     Consensus := 1; IpfsConf := 2;
     RPC := {| HTTPModules := ["net"; "dna"]; HTTPCors := ["*"];
               HTTPVirtualHosts := ["localhost"]; HTTPTimeouts := 3;
               rpc_rest := 9 |};
     cfg_rest := 0 |}.

(** An environment whose fallible calls answer as given, at every point
    of the history. *)
Definition sample_env (dbErr ksErr ipfsErr chainErr httpErr : option error)
    (endpoint : string) : Env :=
  {| Join := fun a b => a +:+ "/" +:+ b;
     DefaultPort := 40404%Z; DefaultRpcHost := "localhost";
     DefaultRpcPort := 9009%Z; DefaultBootnode := "enode://boot";
     DefaultIpfsPort := 4002%Z; DefaultNoDiscovery := false;
     GetDefaultConfig := fun _ _ _ _ _ _ _ _ _ _ _ _ => sample_config;
     KeyStoreDataDir_ret := fun _ c => (DataDir c +:+ "/keystore", ksErr);
     NodeKey_ret := fun _ _ => 5;
     HTTPEndpoint := fun _ => endpoint;
     StandardScryptN := 262144%Z; StandardScryptP := 1%Z;
     FileHandler_err := fun _ _ _ => None;
     NewGoLevelDBWithOpts_err := fun _ _ _ _ => dbErr;
     NewIpfsProxy_err := fun _ _ => ipfsErr;
     FromECDSA := fun _ => [];
     InitializeChain_ret := fun _ _ => (6, chainErr);
     Height := fun _ => 42;
     Hash_ := fun b => b + 1000;
     GetBlock_ret := fun _ _ h => h - 1000;
     StartHTTPEndpoint_err := fun _ _ _ _ _ _ _ => httpErr |}.

Definition env_ok : Env := sample_env None None None None None "localhost:9009".

Definition World0 : World :=
  {| history := []; next := 100%positive; Head := fun _ => nil |}.

Definition sample_node : Node :=
  {| config := sample_config; blockchain := 11; appState := 12;
     secStore := 13; pm := 14; stop := nil; proposals := 15; votes := nil;
     consensusEngine := 16; txpool := 17; flipKeyPool := 18; rpcAPIs := [];
     httpListener := nil; httpHandler := nil; log := 19; srv := nil;
     keyStore := 20; fp := 21; ipfsProxy := 22; bus := 23; ceremony := 24;
     downloader := 25 |}.

End Samples.

(** ** The traces [NewNode] and [Start] are expected to leave *)

Definition is_pool (e : Event) : bool :=
  match e with
  | NewProposals _ ↦ _ | NewVotes _ ↦ _ => true
  | _ => false
  end.

Definition is_engine_start (e : Event) : bool :=
  match e with Engine_Start _ ↦ _ => true | _ => false end.

(** The calls of [startRPC] and the logging around it. *)
Definition is_rpc (e : Event) : bool :=
  match e with
  | NewBaseApi _ _ _ _ ↦ _ | NewNetApi _ _ _ ↦ _ | NewDnaApi _ _ ↦ _
  | NewAccountApi _ ↦ _ | NewFlipApi _ _ _ _ _ ↦ _
  | NewBlockchainApi _ _ _ _ _ _ ↦ _
  | StartHTTPEndpoint _ _ _ _ _ _ ↦ _
  | log_Info _ _ _ ↦ _ | log_Error _ _ _ ↦ _ => true
  | _ => false
  end.

(** A successful [NewNode], by the objects it creates. *)
Definition NewNode_events (env : Env) (c : Config) (dir : string)
    (db ipfs bus_ ks sec app vts tx fkp chain props flp pm_ dl eng cer lg : Ref)
  : list Event :=
  [ NewGoLevelDBWithOpts "idenachain" (DataDir c)
      {| OpenFilesCacheCapacity := 16; BlockCacheCapacity := 8 * MiB;
         WriteBuffer := 4 * MiB; Filter_ := NewBloomFilter 10 |}
      ↦ VRefErr db None;
    KeyStoreDataDir c ↦ VStrErr dir None;
    NewIpfsProxy (IpfsConf c) ↦ VRefErr ipfs None;
    eventbus_New ↦ VRef bus_;
    NewKeyStore dir (StandardScryptN env) (StandardScryptP env) ↦ VRef ks;
    NewSecStore ↦ VRef sec;
    NewAppState db bus_ ↦ VRef app;
    NewVotes app ↦ VRef vts;
    NewTxPool app bus_ ↦ VRef tx;
    NewKeysPool app bus_ ↦ VRef fkp;
    NewBlockchain c db tx app ipfs sec bus_ ↦ VRef chain;
    NewProposals chain ↦ VRef props;
    NewFlipper db ipfs fkp tx sec app ↦ VRef flp;
    NetProtocolManager chain props vts tx flp bus_ fkp (P2P c) ↦ VRef pm_;
    NewDownloader pm_ chain ipfs app ↦ VRef dl;
    NewEngine chain pm_ props (Consensus c) app vts tx sec dl ↦ VRef eng;
    NewValidationCeremony app bus_ flp pm_ sec db tx chain dl ↦ VRef cer;
    log_New ↦ VRef lg ].

(** The node's configuration once [Start] has written the protocol list
    and the private key [key] through [config.P2P]. *)
Definition Start_config (node : Node) (key : Ref) : Config :=
  set_P2P (config node)
    {| Protocols := [ {| Name := "AppName"; Version_ := 1;
                         Run := HandleNewPeer (pm node); Length := 35 |} ];
       PrivateKey := key;
       p2p_rest := p2p_rest (P2P (config node)) |}.

(** [Start] up to the call of [InitializeChain]: the node key is asked
    for twice ([k1], [k2]) and the p2p server [server] is built. *)
Definition Start_prologue (env : Env) (node : Node) (k1 k2 server : Ref)
  : list Event :=
  [ NodeKey (Start_config node (PrivateKey (P2P (config node)))) ↦ VRef k1;
    Server_lit (P2P (Start_config node k1)) ↦ VRef server;
    NodeKey (Start_config node k1) ↦ VRef k2;
    SecStore_AddKey (secStore node) (FromECDSA env k2) ↦ VUnit ].

(** [Start] from the first initialisation to the start of the protocol
    manager, when the chain came up with [head]. *)
Definition Start_bringup (env : Env) (node : Node) (head block server : Ref)
  : list Event :=
  [ AppState_Initialize (appState node) (Height env head) ↦ VUnit;
    TxPool_Initialize (txpool node) head ↦ VUnit;
    KeysPool_Initialize (flipKeyPool node) head ↦ VUnit;
    Flipper_Initialize (fp node) ↦ VUnit;
    GetBlock (blockchain node) (Hash_ env head) ↦ VRef block;
    Ceremony_Initialize (ceremony node) block ↦ VUnit;
    ProvideApplyNewEpochFunc (blockchain node) (ApplyNewEpoch (ceremony node))
      ↦ VUnit;
    Engine_Start (consensusEngine node) ↦ VUnit;
    Server_Start server ↦ VUnit;
    Pm_Start (pm node) ↦ VUnit ].

(** The invariant of the epoch hook: a running engine finds [f] installed. *)
Definition hook_ready (f : Func) (s : Epoch) : Prop :=
  running s = true → hook s = Some f.

(** [P] holds of the state after every prefix of [tr], replayed from [s]. *)
Fixpoint Always (chain : Ref) (P : Epoch → Prop) (s : Epoch)
    (tr : list Event) : Prop :=
  P s ∧ match tr with
        | [] => True
        | e :: tr' => Always chain P (epoch_step chain s e) tr'
        end.

(** The first two statements of [StartDefaultNode], and the configuration
    it builds. *)
Definition StartDefaultNode_log (env : Env) (path : string) : M unit :=
  let file := Join env path "output.log" in
  r ← construct_err (FileHandler file (TerminalFormat false))
        (fun h => FileHandler_err env h file (TerminalFormat false));
  perform (Root_SetHandler
             (LvlFilterHandler LvlInfo
                (MultiHandler (StreamHandler_Stdout LogfmtFormat)
                   (HandlerRef (fst r))))).

Definition StartDefaultNode_config (env : Env) (path : string) : Config :=
  GetDefaultConfig env path (DefaultPort env) false (DefaultRpcHost env)
    (DefaultRpcPort env) (DefaultBootnode env) "" (DefaultIpfsPort env)
    (DefaultNoDiscovery env) "" 0%Z 0%Z.

(** [env] with other outcomes for the steps of [Start] that can fail. *)
Definition with_Start_outcomes (env : Env)
    (chain : list Event → Ref → Ref * option error)
    (http : list Event → string → list API → list string → list string →
            list string → N → option error) : Env :=
  {| Join := Join env; DefaultPort := DefaultPort env;
     DefaultRpcHost := DefaultRpcHost env;
     DefaultRpcPort := DefaultRpcPort env;
     DefaultBootnode := DefaultBootnode env;
     DefaultIpfsPort := DefaultIpfsPort env;
     DefaultNoDiscovery := DefaultNoDiscovery env;
     GetDefaultConfig := GetDefaultConfig env;
     KeyStoreDataDir_ret := KeyStoreDataDir_ret env;
     NodeKey_ret := NodeKey_ret env; HTTPEndpoint := HTTPEndpoint env;
     StandardScryptN := StandardScryptN env;
     StandardScryptP := StandardScryptP env;
     FileHandler_err := FileHandler_err env;
     NewGoLevelDBWithOpts_err := NewGoLevelDBWithOpts_err env;
     NewIpfsProxy_err := NewIpfsProxy_err env;
     FromECDSA := FromECDSA env;
     InitializeChain_ret := chain;
     Height := Height env; Hash_ := Hash_ env;
     GetBlock_ret := GetBlock_ret env;
     StartHTTPEndpoint_err := http |}.

(** More sample inputs. *)
Definition boom : error := {| Error := "disk full" |}.

Definition env_chain_fails : Env :=
  sample_env None None None (Some boom) None "localhost:9009".

Definition env_db_fails : Env :=
  sample_env (Some boom) None None None None "localhost:9009".

Definition env_http_fails : Env :=
  sample_env None None None None (Some boom) "localhost:9009".

Definition built_node : Node :=
  Eval vm_compute in
    match fst (NewNode env_ok sample_config World0) with
    | inr n => n
    | inl _ => sample_node
    end.

Definition listening_node : Node :=
  set_httpHandler (set_httpListener sample_node 31%N) 32%N.

(** ** [WaitForStop] *)

(** [WaitForStop] receives from [node.stop] and then destroys the secret
    store.  A receive from a nil channel never completes; on a channel
    that exists it completes when somebody sends or closes, which
    [signalled] tells. *)
Inductive Waited :=
| BlocksForever
| Destroyed (secStore : Ref).

Definition WaitForStop (signalled : Ref → bool) (node : Node) : Waited :=
  if decide (stop node = nil) then BlocksForever
  else if signalled (stop node) then Destroyed (secStore node)
       else BlocksForever.

(** ** More ways to read a trace *)

(** The error an event returned, if any. *)
Definition returned_error (e : Event) : option error :=
  match e with
  | _ ↦ VRefErr _ err | _ ↦ VStrErr _ err | _ ↦ VHttp _ _ err => err
  | _ => None
  end.

(** The object an event returned, if any. *)
Definition returned_ref (e : Event) : list Ref :=
  match e with
  | _ ↦ VRef r | _ ↦ VRefErr r None => [r]
  | _ => []
  end.

(** The components [NewNode] builds once its three fallible calls went
    through. *)
Definition is_component (e : Event) : bool :=
  match e with
  | eventbus_New ↦ _ | NewKeyStore _ _ _ ↦ _ | NewSecStore ↦ _
  | NewAppState _ _ ↦ _ | NewVotes _ ↦ _ | NewTxPool _ _ ↦ _
  | NewKeysPool _ _ ↦ _ | NewBlockchain _ _ _ _ _ _ _ ↦ _
  | NewProposals _ ↦ _ | NewFlipper _ _ _ _ _ _ ↦ _
  | NetProtocolManager _ _ _ _ _ _ _ _ ↦ _ | NewDownloader _ _ _ _ ↦ _
  | NewEngine _ _ _ _ _ _ _ _ _ ↦ _
  | NewValidationCeremony _ _ _ _ _ _ _ _ _ ↦ _ | log_New ↦ _ => true
  | _ => false
  end.

(** Calls that act on a component after it is built. *)
Definition is_lifecycle (e : Event) : bool :=
  match e with
  | InitializeChain _ ↦ _ | ProvideApplyNewEpochFunc _ _ ↦ _
  | SecStore_AddKey _ _ ↦ _ | NodeKey _ ↦ _ | Server_lit _ ↦ _ => true
  | _ => is_init e || is_start e
  end.

Definition is_close (e : Event) : bool :=
  match e with
  | Listener_Close _ ↦ _ | Handler_Stop _ ↦ _ => true
  | _ => false
  end.

Definition is_api (e : Event) : bool :=
  match e with
  | NewBaseApi _ _ _ _ ↦ _ | NewNetApi _ _ _ ↦ _ | NewDnaApi _ _ ↦ _
  | NewAccountApi _ ↦ _ | NewFlipApi _ _ _ _ _ ↦ _
  | NewBlockchainApi _ _ _ _ _ _ ↦ _ => true
  | _ => false
  end.

(** The objects of other packages a constructor of [NewNode] is given
    (configuration values left aside). *)
Definition call_refs (c : Call) : list Ref :=
  match c with
  | NewAppState db bus => [db; bus]
  | NewVotes appState => [appState]
  | NewTxPool appState bus => [appState; bus]
  | NewKeysPool appState bus => [appState; bus]
  | NewBlockchain _ db txpool appState ipfsProxy secStore bus =>
      [db; txpool; appState; ipfsProxy; secStore; bus]
  | NewProposals chain => [chain]
  | NewFlipper db ipfsProxy flipKeyPool txpool secStore appState =>
      [db; ipfsProxy; flipKeyPool; txpool; secStore; appState]
  | NetProtocolManager chain proposals votes txpool flipper bus flipKeyPool _ =>
      [chain; proposals; votes; txpool; flipper; bus; flipKeyPool]
  | NewDownloader pm chain ipfsProxy appState =>
      [pm; chain; ipfsProxy; appState]
  | NewEngine chain pm proposals _ appState votes txpool secStore downloader =>
      [chain; pm; proposals; appState; votes; txpool; secStore; downloader]
  | NewValidationCeremony appState bus flipper pm secStore db txpool chain
      downloader =>
      [appState; bus; flipper; pm; secStore; db; txpool; chain; downloader]
  | _ => []
  end.

(** Every object a call of [tr] is given is non-nil and was returned by
    an earlier call of [tr] (or is in [known] to begin with). *)
Fixpoint well_scoped (known : list Ref) (tr : list Event) : Prop :=
  match tr with
  | [] => True
  | e :: tr' =>
      Forall (fun r => r ≠ nil ∧ r ∈ known)
        (match e with c ↦ _ => call_refs c end)
      ∧ well_scoped (returned_ref e ++ known) tr'
  end.

(** One world is a continuation of another. *)
Definition extends (w w' : World) : Prop :=
  ∃ l, history w' = l ++ history w.

(** The descriptors [apis] returns and the calls it makes, by the
    services it builds; [server] is the node's [srv]. *)
Definition api_list (netApi dnaApi accountApi flipApi blockchainApi : Ref)
  : list API :=
  [ {| Namespace := "net"; Version := "1.0";
       Service := netApi; Public := true |};
    {| Namespace := "dna"; Version := "1.0";
       Service := dnaApi; Public := true |};
    {| Namespace := "account"; Version := "1.0";
       Service := accountApi; Public := true |};
    {| Namespace := "flip"; Version := "1.0";
       Service := flipApi; Public := true |};
    {| Namespace := "bcn"; Version := "1.0";
       Service := blockchainApi; Public := true |} ].

Definition api_events (node : Node)
    (server baseApi netApi dnaApi accountApi flipApi blockchainApi : Ref)
  : list Event :=
  [ NewBaseApi (consensusEngine node) (txpool node) (keyStore node)
      (secStore node) ↦ VRef baseApi;
    NewNetApi (pm node) server (ipfsProxy node) ↦ VRef netApi;
    NewDnaApi baseApi (blockchain node) ↦ VRef dnaApi;
    NewAccountApi baseApi ↦ VRef accountApi;
    NewFlipApi baseApi (fp node) (pm node) (ipfsProxy node) (ceremony node)
      ↦ VRef flipApi;
    NewBlockchainApi baseApi (blockchain node) (ipfsProxy node) (txpool node)
      (downloader node) (pm node) ↦ VRef blockchainApi ].

(** The call of [StartHTTPEndpoint] that [startRPC] makes for [node]. *)
Definition rpc_call (env : Env) (node : Node) (apis : list API) : Call :=
  StartHTTPEndpoint (HTTPEndpoint env (RPC (config node))) apis
    (HTTPModules (RPC (config node))) (HTTPCors (RPC (config node)))
    (HTTPVirtualHosts (RPC (config node))) (HTTPTimeouts (RPC (config node))).

(** The line [startHTTP] logs once the endpoint is open. *)
Definition opened_line (env : Env) (node : Node) : Event :=
  log_Info (log node) "HTTP endpoint opened"
    ["url"; "http://" +:+ HTTPEndpoint env (RPC (config node));
     "cors"; String.concat "," (HTTPCors (RPC (config node)));
     "vhosts"; String.concat "," (HTTPVirtualHosts (RPC (config node)))]
  ↦ VUnit.

(** What [stopHTTP] does to a listener [l] and a handler [h]. *)
Definition closing_events (env : Env) (node : Node) (l h : Ref) : list Event :=
  [ Listener_Close l ↦ VUnit;
    log_Info (log node) "HTTP endpoint closed"
      ["url"; "http://" +:+ HTTPEndpoint env (RPC (config node))] ↦ VUnit;
    Handler_Stop h ↦ VUnit ].

(** Further sample inputs. *)
Definition env_keystore_fails : Env :=
  sample_env None (Some boom) None None None "localhost:9009".

Definition env_no_endpoint : Env :=
  sample_env None None None None None "".

Definition World1 : World :=
  Eval vm_compute in snd (NewNode env_ok sample_config World0).

(** ** Running the model *)

Lemma emitted_app (w w' : World) (l : list Event) :
  history w' = rev l ++ history w → emitted w w' = l.
Proof.
  intros E. unfold emitted. rewrite E, length_app.
  replace (length (rev l) + length (history w) - length (history w))
    with (length (rev l)) by lia.
  by rewrite take_app_length, rev_involutive.
Qed.

Lemma emitted_refl (w : World) : emitted w w = [].
Proof. by apply emitted_app. Qed.

(** Unfold the monad and the functions of [node.go], nothing else. *)
Ltac run_go :=
  cbv beta iota zeta delta
    [trace_of NewNode OpenDatabase Start startRPC startHTTP stopHTTP apis
     StartDefaultNode StartDefaultNode_log StartDefaultNode_config
     construct_err construct perform consult emit alloc
     config_KeyStoreDataDir config_NodeKey blockchain_InitializeChain
     blockchain_Head blockchain_GetBlock rpc_StartHTTPEndpoint
     mbind M_bind mret M_ret fst snd history next Head] in *.

Lemma emitted_rev (w w' : World) (l : list Event) :
  history w' = l ++ history w → emitted w w' = rev l.
Proof. intros E. apply emitted_app. by rewrite rev_involutive. Qed.

(** Compute the events between two worlds that are written out. *)
Ltac newer l h :=
  match l with
  | h => constr:(@List.nil Event)
  | ?e :: ?l' => let r := newer l' h in constr:(e :: r)
  end.

Ltac read_trace :=
  repeat match goal with
  | |- context [emitted {| history := ?h; next := _; Head := _ |}
                        {| history := ?l; next := _; Head := _ |}] =>
      let new := newer l h in
      rewrite (emitted_rev {| history := h; next := _; Head := _ |}
                           {| history := l; next := _; Head := _ |} new)
        by reflexivity
  end;
  cbn [rev app].

(** Membership in a trace that is written out. *)
Ltac in_trace :=
  repeat first [ apply list_elem_of_here | apply list_elem_of_further ].

(** *** [NewNode] *)

Lemma NewNode_ok env c w node :
  (NewNode env c w).1 = inr node →
  ∃ dir db ipfs bus_ ks sec app vts tx fkp chain props flp pm_ dl eng cer lg,
    trace_of (NewNode env c) w =
      NewNode_events env c dir db ipfs bus_ ks sec app vts tx fkp chain props
        flp pm_ dl eng cer lg
    ∧ node = {| config := c; blockchain := chain; appState := app;
                secStore := sec; pm := pm_; stop := nil; proposals := props;
                votes := nil; consensusEngine := eng; txpool := tx;
                flipKeyPool := fkp; rpcAPIs := []; httpListener := nil;
                httpHandler := nil; log := lg; srv := nil; keyStore := ks;
                fp := flp; ipfsProxy := ipfs; bus := bus_; ceremony := cer;
                downloader := dl |}
    ∧ Forall (fun r => (Npos (next w) <= r)%N)
        [db; ipfs; bus_; ks; sec; app; vts; tx; fkp; chain; props; flp; pm_;
         dl; eng; cer; lg].
Proof.
  destruct w as [h p H]. run_go.
  destruct (NewGoLevelDBWithOpts_err _ _ _ _ _) eqn:Edb; run_go; [done|].
  destruct (KeyStoreDataDir_ret _ _ _) as [dir [e|]] eqn:Eks; run_go; [done|].
  destruct (NewIpfsProxy_err _ _ _) eqn:Eipfs; run_go; [done|].
  intros [= <-].
  do 18 eexists. split; [|split].
  - apply emitted_app. reflexivity.
  - reflexivity.
  - repeat constructor; lia.
Qed.

(** Whatever happens, [NewNode] begins by opening "idenachain" in the
    data directory and opens nothing else. *)
Lemma NewNode_opens_once env c w :
  ∃ v tl,
    trace_of (NewNode env c) w =
      (NewGoLevelDBWithOpts "idenachain" (DataDir c)
         {| OpenFilesCacheCapacity := 16; BlockCacheCapacity := 8 * MiB;
            WriteBuffer := 4 * MiB; Filter_ := NewBloomFilter 10 |} ↦ v) :: tl
    ∧ count is_open_database tl = 0.
Proof.
  destruct w as [h p H]. run_go.
  destruct (NewGoLevelDBWithOpts_err _ _ _ _ _) eqn:Edb; run_go.
  { read_trace. do 2 eexists. split; reflexivity. }
  destruct (KeyStoreDataDir_ret _ _ _) as [dir [e|]] eqn:Eks; run_go.
  { read_trace. do 2 eexists. split; reflexivity. }
  destruct (NewIpfsProxy_err _ _ _) eqn:Eipfs; run_go.
  { read_trace. do 2 eexists. split; reflexivity. }
  read_trace. do 2 eexists. split; reflexivity.
Qed.

(** C4.  When [NewNode] succeeds, the Proposals pool and the Votes pool it
    creates are the ones handed to the protocol manager and to the
    consensus engine; the downloader is built over that protocol manager
    and the chain; and that downloader is the one handed to the engine and
    to the validation ceremony.  No other pool, protocol manager,
    downloader, engine or ceremony is created. *)
Theorem NewNode_shares_pools_and_downloader env c w node :
  (NewNode env c w).1 = inr node →
  let tr := trace_of (NewNode env c) w in
  ∃ vts db,
    (NewProposals (blockchain node) ↦ VRef (proposals node)) ∈ tr
    ∧ (NewVotes (appState node) ↦ VRef vts) ∈ tr
    ∧ (NetProtocolManager (blockchain node) (proposals node) vts
         (txpool node) (fp node) (bus node) (flipKeyPool node) (P2P c)
         ↦ VRef (pm node)) ∈ tr
    ∧ (NewDownloader (pm node) (blockchain node) (ipfsProxy node)
         (appState node) ↦ VRef (downloader node)) ∈ tr
    ∧ (NewEngine (blockchain node) (pm node) (proposals node) (Consensus c)
         (appState node) vts (txpool node) (secStore node) (downloader node)
         ↦ VRef (consensusEngine node)) ∈ tr
    ∧ (NewValidationCeremony (appState node) (bus node) (fp node) (pm node)
         (secStore node) db (txpool node) (blockchain node) (downloader node)
         ↦ VRef (ceremony node)) ∈ tr
    ∧ count is_pool tr = 2
    ∧ count is_consumer tr = 4.
Proof.
  intros Hok tr. subst tr.
  destruct (NewNode_ok _ _ _ _ Hok)
    as (dir & db & ipfs & bus_ & ks & sec & app & vts & tx & fkp & chain
        & props & flp & pm_ & dl & eng & cer & lg & -> & -> & _).
  exists vts, db. unfold NewNode_events. cbn [blockchain proposals appState
    txpool fp bus flipKeyPool pm ipfsProxy downloader secStore
    consensusEngine ceremony].
  repeat split; try reflexivity; in_trace.
Qed.

(** C6.  [NewNode] makes exactly one call that opens a database, for
    "idenachain" in the configured data directory; when it succeeds, the
    handle that call returned is the one given to the app state, the
    blockchain, the flipper and the validation ceremony, and to each of
    them once. *)
Theorem NewNode_single_database env c w :
  let tr := trace_of (NewNode env c) w in
  count is_open_database tr = 1
  ∧ (∃ o v tl, tr = (NewGoLevelDBWithOpts "idenachain" (DataDir c) o ↦ v) :: tl)
  ∧ ∀ node, (NewNode env c w).1 = inr node →
      ∃ o db,
        db ≠ nil
        ∧ (NewGoLevelDBWithOpts "idenachain" (DataDir c) o ↦ VRefErr db None)
            ∈ tr
        ∧ (NewAppState db (bus node) ↦ VRef (appState node)) ∈ tr
        ∧ (NewBlockchain c db (txpool node) (appState node) (ipfsProxy node)
             (secStore node) (bus node) ↦ VRef (blockchain node)) ∈ tr
        ∧ (NewFlipper db (ipfsProxy node) (flipKeyPool node) (txpool node)
             (secStore node) (appState node) ↦ VRef (fp node)) ∈ tr
        ∧ (NewValidationCeremony (appState node) (bus node) (fp node)
             (pm node) (secStore node) db (txpool node) (blockchain node)
             (downloader node) ↦ VRef (ceremony node)) ∈ tr
        ∧ count takes_database tr = 4.
Proof.
  intros tr. subst tr. split; [|split].
  - destruct (NewNode_opens_once env c w) as (v & tl & -> & Htl).
    unfold count in *. cbn [List.filter is_open_database]. cbn [length].
    by rewrite Htl.
  - destruct (NewNode_opens_once env c w) as (v & tl & -> & _). eauto.
  - intros node Hok.
    destruct (NewNode_ok _ _ _ _ Hok)
      as (dir & db & ipfs & bus_ & ks & sec & app & vts & tx & fkp & chain
          & props & flp & pm_ & dl & eng & cer & lg & -> & -> & Hfresh).
    eexists _, db. unfold NewNode_events. cbn [blockchain proposals appState
      txpool fp bus flipKeyPool pm ipfsProxy downloader secStore
      consensusEngine ceremony].
    split.
    { apply Forall_cons_1 in Hfresh as [Hdb _]. unfold nil. lia. }
    repeat split; try reflexivity; in_trace.
Qed.

(** C7.  When [NewNode] succeeds it calls [NewEngine] once, with the
    chain, the protocol manager, the proposal pool, the consensus
    configuration, the app state, the vote pool, the transaction pool,
    the secret store and the downloader as its nine arguments.  The
    configuration is the [Consensus] field of [NewNode]'s own argument;
    each of the other eight is an object a constructor returned earlier in
    the same call of [NewNode], at an address that was not allocated
    before the call. *)
Theorem NewNode_injects_engine_dependencies env c w node :
  (NewNode env c w).1 = inr node →
  let tr := trace_of (NewNode env c) w in
  ∃ vts before after,
    let deps := [blockchain node; pm node; proposals node; appState node;
                 vts; txpool node; secStore node; downloader node] in
    tr = before
         ++ (NewEngine (blockchain node) (pm node) (proposals node)
               (Consensus c) (appState node) vts (txpool node)
               (secStore node) (downloader node)
             ↦ VRef (consensusEngine node)) :: after
    ∧ count is_NewEngine tr = 1
    ∧ Forall (fun r => ∃ call, (call ↦ VRef r) ∈ before) deps
    ∧ Forall (fun r => (Npos (next w) <= r)%N) deps.
Proof.
  intros Hok tr. subst tr.
  destruct (NewNode_ok _ _ _ _ Hok)
    as (dir & db & ipfs & bus_ & ks & sec & app & vts & tx & fkp & chain
        & props & flp & pm_ & dl & eng & cer & lg & -> & -> & Hfresh).
  exists vts.
  exists (take 15 (NewNode_events env c dir db ipfs bus_ ks sec app vts tx fkp
                     chain props flp pm_ dl eng cer lg)).
  eexists. unfold NewNode_events. cbn [take blockchain proposals appState
    txpool fp bus flipKeyPool pm ipfsProxy downloader secStore
    consensusEngine ceremony].
  split; [reflexivity|]. split; [reflexivity|]. split.
  - repeat constructor; eexists; in_trace.
  - repeat match goal with
           | F : Forall _ (_ :: _) |- _ => apply Forall_cons_1 in F as [? F]
           end.
    repeat constructor; assumption.
Qed.

(** *** [Start] *)

(** The two ways [Start] can run: the chain fails to initialise, or it
    comes up with [head] and everything is brought up, ending with RPC. *)
Lemma Start_run env node w :
  ∃ k1 k2 server head err,
    let pre := Start_prologue env node k1 k2 server in
    match err with
    | Some e =>
        trace_of (Start env node) w =
          pre ++ [ InitializeChain (blockchain node) ↦ VRefErr head (Some e);
                   log_Error (log node) "Cannot initialize blockchain"
                     ["error"; Error e] ↦ VUnit ]
        ∧ (Start env node w).1 =
            set_srv (set_config node (Start_config node k1)) server
    | None =>
        ∃ block rpc,
          trace_of (Start env node) w =
            pre ++ (InitializeChain (blockchain node) ↦ VRefErr head None)
                :: Start_bringup env node head block server ++ rpc
          ∧ forallb is_rpc rpc = true
    end.
Proof.
  destruct w as [h p H]. run_go.
  match goal with
  | |- context [NodeKey_ret env h ?c] => exists (NodeKey_ret env h c)
  end.
  eexists. exists (Npos p).
  destruct (InitializeChain_ret _ _ _) as [head [e|]] eqn:Einit;
    exists head; [exists (Some e) | exists None]; run_go.
  - read_trace. split; reflexivity.
  - rewrite !N.eqb_refl.
    destruct (decide (HTTPEndpoint env _ = "")) as [Hep|Hep]; run_go.
    { read_trace. do 2 eexists. split; reflexivity. }
    destruct (StartHTTPEndpoint_err _ _ _ _ _ _ _ _) eqn:Ehttp; run_go.
    { read_trace. do 2 eexists. split; reflexivity. }
    read_trace. do 2 eexists. split; reflexivity.
Qed.

Lemma occurs_before_here a p l : occurs_before a p (a :: l).
Proof. by exists [], l. Qed.

Lemma occurs_before_later a p e l :
  p e = false → occurs_before a p l → occurs_before a p (e :: l).
Proof.
  intros He (l1 & l2 & -> & Hl1). exists (e :: l1), l2.
  split; [done|]. cbn [forallb]. by rewrite He, Hl1.
Qed.

Ltac find_before :=
  repeat first [ apply occurs_before_here
               | apply occurs_before_later; [reflexivity|] ].

Lemma rpc_elem rpc e : forallb is_rpc rpc = true → e ∈ rpc → is_rpc e = true.
Proof.
  intros Hall Hin. apply list_elem_of_In in Hin.
  exact (proj1 (forallb_forall is_rpc rpc) Hall e Hin).
Qed.

Lemma rpc_count (p : Event → bool) rpc :
  (∀ e, is_rpc e = true → p e = false) →
  forallb is_rpc rpc = true → count p rpc = 0.
Proof.
  intros Hp. unfold count. induction rpc as [|e rpc IH]; [done|].
  cbn [forallb List.filter]. intros [He Hrpc]%andb_prop.
  rewrite (Hp e He). auto.
Qed.

Lemma rpc_not_init e : is_rpc e = true → is_init e = false.
Proof. by destruct e as [[] v]. Qed.

Lemma epoch_step_rpc chain s e : is_rpc e = true → epoch_step chain s e = s.
Proof. by destruct e as [[] v]. Qed.

(** *** The epoch hook along a trace *)

Lemma Always_prefix chain P tr :
  ∀ s, Always chain P s tr →
       ∀ p, p `prefix_of` tr → P (fold_left (epoch_step chain) p s).
Proof.
  induction tr as [|e tr IH]; intros s [Hs Htl] p Hp.
  - by apply prefix_nil_inv in Hp as ->.
  - destruct p as [|e' p]; [exact Hs|].
    pose proof (prefix_cons_inv_1 _ _ _ _ Hp) as ->.
    apply prefix_cons_inv_2 in Hp. cbn [fold_left]. by apply IH.
Qed.

Lemma Always_app chain P l1 :
  ∀ s l2, Always chain P s l1 →
          Always chain P (fold_left (epoch_step chain) l1 s) l2 →
          Always chain P s (l1 ++ l2).
Proof.
  induction l1 as [|e l1 IH]; intros s l2 H1 H2; [exact H2|].
  destruct H1 as [Hs H1]. split; [exact Hs|]. by apply IH.
Qed.

Lemma Always_rpc chain P rpc :
  forallb is_rpc rpc = true → ∀ s, P s → Always chain P s rpc.
Proof.
  induction rpc as [|e rpc IH]; intros Hall s Hs; [done|].
  apply andb_prop in Hall as [He Hrpc]. split; [exact Hs|].
  rewrite (epoch_step_rpc _ _ _ He). by apply IH.
Qed.

(** C1.  In every run of [Start], if the consensus engine is started at
    all then [ProvideApplyNewEpochFunc] has been called before, on the
    node's blockchain and with the ceremony's [ApplyNewEpoch]; and,
    replaying the run from a state with no hook and no engine, after
    every prefix of the trace a running engine finds that function
    installed as the epoch-apply hook. *)
Theorem Start_installs_hook_before_engine env node w :
  let tr := trace_of (Start env node) w in
  let f := ApplyNewEpoch (ceremony node) in
  ((∃ e, e ∈ tr ∧ is_engine_start e = true) →
   occurs_before (ProvideApplyNewEpochFunc (blockchain node) f ↦ VUnit)
     is_engine_start tr)
  ∧ ∀ p, p `prefix_of` tr →
      running (epoch_after (blockchain node) p) = true →
      hook (epoch_after (blockchain node) p) = Some f.
Proof.
  intros tr f. subst tr f.
  destruct (Start_run env node w) as (k1 & k2 & server & head & [e|] & Hrun);
    cbn zeta in Hrun.
  - destruct Hrun as [-> _]. unfold Start_prologue. cbn [app]. split.
    + intros (x & Hin & Hx).
      rewrite !elem_of_cons, elem_of_nil in Hin.
      destruct_or!; subst; discriminate || done.
    + intros p Hp. unfold epoch_after.
      refine (Always_prefix _ (hook_ready _) _ _ _ p Hp).
      cbn; repeat split; intros ?; discriminate.
  - destruct Hrun as (block & rpc & -> & Hrpc).
    unfold Start_prologue, Start_bringup. cbn [app]. split.
    + intros _. find_before.
    + intros p Hp. unfold epoch_after.
      refine (Always_prefix _ (hook_ready _) _ _ _ p Hp).
      match goal with
      | |- Always _ _ _ (?a :: ?b :: ?c :: ?d :: ?e :: ?f :: ?g :: ?h :: ?i
                         :: ?j :: ?k :: ?l :: ?m :: ?n :: ?o :: rpc) =>
          change (Always (blockchain node)
                    (hook_ready (ApplyNewEpoch (ceremony node)))
                    {| hook := None; running := false |}
                    ([a; b; c; d; e; f; g; h; i; j; k; l; m; n; o] ++ rpc))
      end.
      apply Always_app.
      * cbn. rewrite N.eqb_refl. cbn.
        repeat split; intros ?; discriminate || reflexivity.
      * cbn. rewrite N.eqb_refl. cbn.
        apply Always_rpc; [exact Hrpc|]. intros _. reflexivity.
Qed.

(** C2.  If [InitializeChain] returns an error [e] during [Start], the
    trace of [Start] is its prologue, that call, and one log line
    "Cannot initialize blockchain" carrying [e]'s message, after which
    nothing happens: no component is initialised, no service is started,
    and the node's RPC fields are as they were. *)
Theorem Start_returns_when_chain_fails env node w head e :
  let tr := trace_of (Start env node) w in
  let node' := (Start env node w).1 in
  (InitializeChain (blockchain node) ↦ VRefErr head (Some e)) ∈ tr →
  (∃ k1 k2 server,
     tr = Start_prologue env node k1 k2 server
          ++ [ InitializeChain (blockchain node) ↦ VRefErr head (Some e);
               log_Error (log node) "Cannot initialize blockchain"
                 ["error"; Error e] ↦ VUnit ])
  ∧ count is_init tr = 0
  ∧ count is_start tr = 0
  ∧ rpcAPIs node' = rpcAPIs node
  ∧ httpListener node' = httpListener node
  ∧ httpHandler node' = httpHandler node.
Proof.
  intros tr node'. subst tr node'.
  destruct (Start_run env node w) as (k1 & k2 & server & head' & [e'|] & Hrun);
    cbn zeta in Hrun.
  - destruct Hrun as [-> ->]. unfold Start_prologue. cbn [app].
    intros Hin. rewrite !elem_of_cons, elem_of_nil in Hin.
    destruct_or!; try discriminate; try done.
    injection Hin as -> ->.
    split; [by exists k1, k2, server|]. by repeat split.
  - destruct Hrun as (block & rpc & -> & Hrpc).
    unfold Start_prologue, Start_bringup. cbn [app].
    intros Hin. rewrite !elem_of_cons in Hin.
    destruct_or!; try discriminate.
    by apply (rpc_elem _ _ Hrpc) in Hin.
Qed.

(** C3.  If [InitializeChain] succeeds during [Start], leaving [head] as
    the chain's head, then the app state is initialised with the height
    of [head], the transaction pool and the flip key pool with [head]
    itself, and the ceremony with the block that [GetBlock] returns for
    the hash of [head]; these calls come after [InitializeChain], and no
    call that starts the engine, the p2p server, the protocol manager or
    the RPC endpoint comes before any of them.  The three services are
    then started, and RPC after them. *)
Theorem Start_initializes_before_services env node w head :
  let tr := trace_of (Start env node) w in
  (InitializeChain (blockchain node) ↦ VRefErr head None) ∈ tr →
  ∃ block server pre rpc,
    tr = pre ++ (InitializeChain (blockchain node) ↦ VRefErr head None)
             :: Start_bringup env node head block server ++ rpc
    ∧ count is_init pre = 0 ∧ count is_start pre = 0
    ∧ count is_init rpc = 0 ∧ forallb is_rpc rpc = true
    ∧ occurs_before
        (AppState_Initialize (appState node) (Height env head) ↦ VUnit)
        is_start tr
    ∧ occurs_before (TxPool_Initialize (txpool node) head ↦ VUnit)
        is_start tr
    ∧ occurs_before (KeysPool_Initialize (flipKeyPool node) head ↦ VUnit)
        is_start tr
    ∧ (GetBlock (blockchain node) (Hash_ env head) ↦ VRef block) ∈ tr
    ∧ occurs_before (Ceremony_Initialize (ceremony node) block ↦ VUnit)
        is_start tr.
Proof.
  intros tr. subst tr.
  destruct (Start_run env node w) as (k1 & k2 & server & head' & [e'|] & Hrun);
    cbn zeta in Hrun.
  - destruct Hrun as [-> _]. unfold Start_prologue. cbn [app].
    intros Hin. rewrite !elem_of_cons, elem_of_nil in Hin.
    destruct_or!; try discriminate; done.
  - destruct Hrun as (block & rpc & -> & Hrpc).
    intros Hin.
    assert (head' = head) as ->.
    { revert Hin. unfold Start_prologue, Start_bringup. cbn [app].
      rewrite !elem_of_cons. intros Hin.
      destruct_or!; try discriminate.
      - by injection Hin.
      - by apply (rpc_elem _ _ Hrpc) in Hin. }
    exists block, server, (Start_prologue env node k1 k2 server), rpc.
    split; [reflexivity|]. split; [reflexivity|]. split; [reflexivity|].
    split; [exact (rpc_count _ _ rpc_not_init Hrpc)|].
    split; [exact Hrpc|].
    unfold Start_prologue, Start_bringup. cbn [app].
    repeat split; try find_before. in_trace.
Qed.

(** *** [apis] *)

(** C5.  [apis] returns five descriptors, in this order: "net" over the
    service built by [NewNetApi], "dna" over [NewDnaApi], "account" over
    [NewAccountApi], "flip" over [NewFlipApi] and "bcn" over
    [NewBlockchainApi]; each has version "1.0" and is public. *)
Theorem apis_five_public_descriptors node w :
  let l := (apis node w).1 in
  length l = 5
  ∧ map Namespace l = ["net"; "dna"; "account"; "flip"; "bcn"]
  ∧ Forall (fun a => Version a = "1.0" ∧ Public a = true) l
  ∧ ∃ baseApi netApi dnaApi accountApi flipApi blockchainApi,
      map Service l = [netApi; dnaApi; accountApi; flipApi; blockchainApi]
      ∧ trace_of (apis node) w =
          [ NewBaseApi (consensusEngine node) (txpool node) (keyStore node)
              (secStore node) ↦ VRef baseApi;
            NewNetApi (pm node) (srv node) (ipfsProxy node) ↦ VRef netApi;
            NewDnaApi baseApi (blockchain node) ↦ VRef dnaApi;
            NewAccountApi baseApi ↦ VRef accountApi;
            NewFlipApi baseApi (fp node) (pm node) (ipfsProxy node)
              (ceremony node) ↦ VRef flipApi;
            NewBlockchainApi baseApi (blockchain node) (ipfsProxy node)
              (txpool node) (downloader node) (pm node)
              ↦ VRef blockchainApi ].
Proof.
  destruct w as [h p H]. run_go.
  split; [reflexivity|]. split; [reflexivity|]. split.
  - by repeat constructor.
  - do 6 eexists. split; [reflexivity|]. read_trace. reflexivity.
Qed.

(** *** [startHTTP] and [stopHTTP] *)

(** C8.  With an empty endpoint [startHTTP] returns nil, makes no call
    (the world is untouched) and leaves the node as it was.  In every
    case the node is either unchanged or [StartHTTPEndpoint] was called,
    returned a listener and a handler with a nil error, and exactly these
    were stored in [httpListener] and [httpHandler]; when the call fails,
    its error is returned and the node is unchanged. *)
Theorem startHTTP_assigns_only_on_success
    env node endpoint apis modules cors vhosts timeouts w :
  let r := startHTTP env node endpoint apis modules cors vhosts timeouts w in
  let node' := r.1.1 in
  let err := r.1.2 in
  let tr := emitted w r.2 in
  let call := StartHTTPEndpoint endpoint apis modules cors vhosts timeouts in
  (endpoint = "" → err = None ∧ r.2 = w ∧ tr = [] ∧ node' = node)
  ∧ (node' = node
     ∨ ∃ l h, (call ↦ VHttp l h None) ∈ tr ∧ err = None
              ∧ node' = set_httpHandler (set_httpListener node l) h)
  ∧ (∀ l h e, (call ↦ VHttp l h (Some e)) ∈ tr → node' = node ∧ err = Some e)
  ∧ (count is_StartHTTPEndpoint tr = 0 → node' = node ∧ err = None).
Proof.
  destruct w as [h p H]. unfold startHTTP.
  destruct (decide (endpoint = "")) as [Hep|Hep].
  - run_go. rewrite emitted_refl.
    split; [done|]. split; [by left|]. split; [|done].
    intros l hd e Hin. by apply elem_of_nil in Hin.
  - run_go.
    destruct (StartHTTPEndpoint_err _ _ _ _ _ _ _ _) as [e|] eqn:Ehttp; run_go;
      read_trace.
    + split; [done|]. split; [by left|]. split; [|done].
      intros l hd e' Hin. rewrite elem_of_cons, elem_of_nil in Hin.
      destruct Hin as [Hin|[]]. by injection Hin as <- <- <-.
    + split; [done|]. split; [|split; [|done]].
      * right. do 2 eexists. split; [in_trace|]. by split.
      * intros l hd e' Hin. rewrite !elem_of_cons, elem_of_nil in Hin.
        destruct_or!; discriminate || done.
Qed.

(** C9.  After [stopHTTP] the listener and the handler fields are nil and
    every other field of the node is what it was; a listener that was set
    has been closed and a handler that was set has been stopped.  When
    both were nil already, the node and the world are untouched, so
    calling [stopHTTP] again right after a call does nothing. *)
Theorem stopHTTP_frame_idempotent env node w :
  let node' := (stopHTTP env node w).1 in
  let w' := (stopHTTP env node w).2 in
  let tr := emitted w w' in
  (httpListener node' = nil ∧ httpHandler node' = nil)
  ∧ (config node' = config node ∧ blockchain node' = blockchain node
     ∧ appState node' = appState node ∧ secStore node' = secStore node
     ∧ pm node' = pm node ∧ stop node' = stop node
     ∧ proposals node' = proposals node ∧ votes node' = votes node
     ∧ consensusEngine node' = consensusEngine node
     ∧ txpool node' = txpool node ∧ flipKeyPool node' = flipKeyPool node
     ∧ rpcAPIs node' = rpcAPIs node ∧ log node' = log node
     ∧ srv node' = srv node ∧ keyStore node' = keyStore node
     ∧ fp node' = fp node ∧ ipfsProxy node' = ipfsProxy node
     ∧ bus node' = bus node ∧ ceremony node' = ceremony node
     ∧ downloader node' = downloader node)
  ∧ (httpListener node ≠ nil →
     (Listener_Close (httpListener node) ↦ VUnit) ∈ tr)
  ∧ (httpHandler node ≠ nil → (Handler_Stop (httpHandler node) ↦ VUnit) ∈ tr)
  ∧ (httpListener node = nil → httpHandler node = nil →
     node' = node ∧ w' = w)
  ∧ stopHTTP env node' w' = (node', w').
Proof.
  destruct w as [h p H].
  destruct node as [cfg chain app sec pm_ stp props vts eng tx fkp rpcs
                    lst hdl lg sv ks flp ipfs bs cer dl].
  unfold stopHTTP. cbn [httpListener httpHandler].
  repeat (case_decide; run_go;
          cbn [httpListener httpHandler set_httpListener set_httpHandler
               log config] in *);
    try read_trace; try rewrite emitted_refl;
    repeat split; try done; try (intros; in_trace; fail);
    try (intros; exfalso; auto; fail);
    try (intros; subst; reflexivity).
Qed.

(** *** [StartDefaultNode] *)

(** [NewNode] and the set-up of [StartDefaultNode] never consult the
    outcomes of the steps of [Start]. *)
Lemma NewNode_ignores_Start_outcomes env chain http c w :
  NewNode (with_Start_outcomes env chain http) c w = NewNode env c w.
Proof. reflexivity. Qed.

Lemma StartDefaultNode_unfold env path w :
  StartDefaultNode env path w =
    let w1 := (StartDefaultNode_log env path w).2 in
    let (r, w2) := NewNode env (StartDefaultNode_config env path) w1 in
    match r with
    | inl err => (Error err, w2)
    | inr n => let (_, w3) := Start env n w2 in ("done", w3)
    end.
Proof.
  unfold StartDefaultNode, StartDefaultNode_log, StartDefaultNode_config.
  cbv beta iota zeta delta [mbind M_bind mret M_ret construct_err consult
                            perform emit alloc].
  destruct (FileHandler_err _ _ _ _); cbn [fst snd];
    by destruct (NewNode _ _ _) as [[err|n] w2].
Qed.

(** C10.  [StartDefaultNode] returns the message of [NewNode]'s error
    when [NewNode] fails and "done" when it succeeds; what
    [InitializeChain] and [StartHTTPEndpoint] answer inside [Start] does
    not change the string returned. *)
Theorem StartDefaultNode_reports_only_NewNode env path w :
  let c := StartDefaultNode_config env path in
  let w1 := (StartDefaultNode_log env path w).2 in
  (StartDefaultNode env path w).1 =
    match (NewNode env c w1).1 with
    | inl err => Error err
    | inr _ => "done"
    end
  ∧ ∀ chain http,
      (StartDefaultNode (with_Start_outcomes env chain http) path w).1 =
      (StartDefaultNode env path w).1.
Proof.
  assert (∀ env,
    (StartDefaultNode env path w).1 =
      match (NewNode env (StartDefaultNode_config env path)
               (StartDefaultNode_log env path w).2).1 with
      | inl err => Error err
      | inr _ => "done"
      end) as Hres.
  { intros env'. rewrite StartDefaultNode_unfold. cbn zeta.
    destruct (NewNode _ _ _) as [[err|n] w2]; [done|].
    by destruct (Start _ _ _). }
  split; [apply Hres|].
  intros chain http. rewrite !Hres.
  by rewrite NewNode_ignores_Start_outcomes.
Qed.

(** ** The theorems at the sample inputs *)

Lemma Start_installs_hook_before_engine_witness :
  let tr := trace_of (Start env_ok sample_node) World0 in
  (Engine_Start 16%N ↦ VUnit) ∈ tr
  ∧ occurs_before (ProvideApplyNewEpochFunc 11%N (ApplyNewEpoch 24%N) ↦ VUnit)
      is_engine_start tr
  ∧ running (epoch_after 11%N tr) = true
  ∧ hook (epoch_after 11%N tr) = Some (ApplyNewEpoch 24%N).
Proof.
  intros tr.
  assert ((Engine_Start 16%N ↦ VUnit) ∈ tr) as Hin
    by (vm_compute; in_trace).
  assert (running (epoch_after 11%N tr) = true) as Hrun
    by (vm_compute; reflexivity).
  destruct (Start_installs_hook_before_engine env_ok sample_node World0)
    as [Hbefore Hhook].
  split; [exact Hin|]. split; [|split; [exact Hrun|]].
  - apply Hbefore. exists (Engine_Start 16%N ↦ VUnit).
    split; [exact Hin|reflexivity].
  - exact (Hhook tr (reflexivity tr) Hrun).
Defined.

Lemma Start_returns_when_chain_fails_witness :
  let tr := trace_of (Start env_chain_fails sample_node) World0 in
  (InitializeChain 11%N ↦ VRefErr 6%N (Some boom)) ∈ tr
  ∧ count is_init tr = 0
  ∧ count is_start tr = 0
  ∧ httpListener (Start env_chain_fails sample_node World0).1 = nil.
Proof.
  intros tr.
  assert ((InitializeChain 11%N ↦ VRefErr 6%N (Some boom)) ∈ tr) as Hin
    by (vm_compute; in_trace).
  destruct (Start_returns_when_chain_fails env_chain_fails sample_node World0
              6%N boom Hin) as (_ & Hinit & Hstart & _ & Hl & _).
  split; [exact Hin|]. split; [exact Hinit|]. split; [exact Hstart|].
  exact Hl.
Defined.

Lemma Start_initializes_before_services_witness :
  let tr := trace_of (Start env_ok sample_node) World0 in
  (InitializeChain 11%N ↦ VRefErr 6%N None) ∈ tr
  ∧ ∃ block,
      occurs_before (AppState_Initialize 12%N 42 ↦ VUnit) is_start tr
      ∧ occurs_before (TxPool_Initialize 17%N 6%N ↦ VUnit) is_start tr
      ∧ occurs_before (KeysPool_Initialize 18%N 6%N ↦ VUnit) is_start tr
      ∧ (GetBlock 11%N 1006%N ↦ VRef block) ∈ tr
      ∧ occurs_before (Ceremony_Initialize 24%N block ↦ VUnit) is_start tr.
Proof.
  intros tr.
  assert ((InitializeChain 11%N ↦ VRefErr 6%N None) ∈ tr) as Hin
    by (vm_compute; in_trace).
  destruct (Start_initializes_before_services env_ok sample_node World0
              6%N Hin)
    as (block & server & pre & rpc & _ & _ & _ & _ & _ & Ha & Ht & Hk & Hg
        & Hc).
  split; [exact Hin|]. exists block.
  split; [exact Ha|]. split; [exact Ht|]. split; [exact Hk|].
  split; [exact Hg|exact Hc].
Defined.

Lemma NewNode_ok_sample :
  (NewNode env_ok sample_config World0).1 = inr built_node.
Proof. vm_compute. reflexivity. Defined.

Lemma NewNode_shares_pools_and_downloader_witness :
  let tr := trace_of (NewNode env_ok sample_config) World0 in
  (NewNode env_ok sample_config World0).1 = inr built_node
  ∧ ∃ vts db,
      (NetProtocolManager 109%N 110%N vts 107%N 111%N 102%N 108%N
         (P2P sample_config) ↦ VRef 112%N) ∈ tr
      ∧ (NewDownloader 112%N 109%N 101%N 105%N ↦ VRef 113%N) ∈ tr
      ∧ (NewEngine 109%N 112%N 110%N 1%N 105%N vts 107%N 104%N 113%N
           ↦ VRef 114%N) ∈ tr
      ∧ (NewValidationCeremony 105%N 102%N 111%N 112%N 104%N db 107%N 109%N
           113%N ↦ VRef 115%N) ∈ tr.
Proof.
  intros tr. split; [exact NewNode_ok_sample|].
  destruct (NewNode_shares_pools_and_downloader env_ok sample_config World0
              built_node NewNode_ok_sample)
    as (vts & db & _ & _ & Hpm & Hdl & Heng & Hcer & _).
  exists vts, db.
  split; [exact Hpm|]. split; [exact Hdl|]. split; [exact Heng|exact Hcer].
Defined.

Lemma NewNode_single_database_witness :
  let tr := trace_of (NewNode env_ok sample_config) World0 in
  (NewNode env_ok sample_config World0).1 = inr built_node
  ∧ count is_open_database tr = 1
  ∧ ∃ o db,
      (NewGoLevelDBWithOpts "idenachain" "/var/idena" o ↦ VRefErr db None)
        ∈ tr
      ∧ (NewAppState db 102%N ↦ VRef 105%N) ∈ tr
      ∧ (NewFlipper db 101%N 108%N 107%N 104%N 105%N ↦ VRef 111%N) ∈ tr
      ∧ count takes_database tr = 4.
Proof.
  intros tr. split; [exact NewNode_ok_sample|].
  destruct (NewNode_single_database env_ok sample_config World0)
    as (Hone & _ & Hshared).
  split; [exact Hone|].
  destruct (Hshared built_node NewNode_ok_sample)
    as (o & db & _ & Hopen & Happ & _ & Hflip & _ & Hfour).
  exists o, db.
  split; [exact Hopen|]. split; [exact Happ|]. split; [exact Hflip|].
  exact Hfour.
Defined.

Lemma NewNode_injects_engine_dependencies_witness :
  let tr := trace_of (NewNode env_ok sample_config) World0 in
  (NewNode env_ok sample_config World0).1 = inr built_node
  ∧ ∃ vts before after,
      tr = before
           ++ (NewEngine 109%N 112%N 110%N 1%N 105%N vts 107%N 104%N 113%N
               ↦ VRef 114%N) :: after
      ∧ count is_NewEngine tr = 1
      ∧ Forall (fun r => (100 <= r)%N)
          [109; 112; 110; 105; vts; 107; 104; 113]%N.
Proof.
  intros tr. split; [exact NewNode_ok_sample|].
  destruct (NewNode_injects_engine_dependencies env_ok sample_config World0
              built_node NewNode_ok_sample)
    as (vts & before & after & Htr & Hone & _ & Hfresh).
  exists vts, before, after.
  split; [exact Htr|]. split; [exact Hone|exact Hfresh].
Defined.

Lemma startHTTP_assigns_only_on_success_witness :
  (let r := startHTTP env_ok sample_node "" [] [] [] [] 0 World0 in
   r.1.2 = None ∧ r.2 = World0 ∧ emitted World0 r.2 = [] ∧ r.1.1 = sample_node)
  ∧ (let r := startHTTP env_http_fails sample_node "localhost:9009" [] [] []
                [] 0 World0 in
     r.1.1 = sample_node ∧ r.1.2 = Some boom).
Proof.
  split.
  - exact (proj1 (startHTTP_assigns_only_on_success env_ok sample_node ""
                    [] [] [] [] 0%N World0) eq_refl).
  - refine (proj1 (proj2 (proj2 (startHTTP_assigns_only_on_success
                                   env_http_fails sample_node "localhost:9009"
                                   [] [] [] [] 0%N World0)))
              nil nil boom _).
    vm_compute. in_trace.
Defined.

Lemma stopHTTP_frame_idempotent_witness :
  (let tr := trace_of (stopHTTP env_ok listening_node) World0 in
   (Listener_Close 31%N ↦ VUnit) ∈ tr ∧ (Handler_Stop 32%N ↦ VUnit) ∈ tr)
  ∧ (stopHTTP env_ok sample_node World0).1 = sample_node
  ∧ (stopHTTP env_ok sample_node World0).2 = World0.
Proof.
  destruct (stopHTTP_frame_idempotent env_ok listening_node World0)
    as (_ & _ & Hclose & Hstop & _).
  destruct (stopHTTP_frame_idempotent env_ok sample_node World0)
    as (_ & _ & _ & _ & Hnoop & _).
  split; [split|].
  - apply Hclose. vm_compute. discriminate.
  - apply Hstop. vm_compute. discriminate.
  - exact (Hnoop eq_refl eq_refl).
Defined.

(** ** Beyond the bring-up order *)

(** *** Worlds that continue one another *)

Lemma emitted_trans (w w1 w2 : World) :
  extends w w1 → extends w1 w2 →
  emitted w w2 = emitted w w1 ++ emitted w1 w2.
Proof.
  intros [l1 E1] [l2 E2].
  rewrite (emitted_rev w w1 l1 E1), (emitted_rev w1 w2 l2 E2).
  rewrite (emitted_rev w w2 (l2 ++ l1)); [apply rev_app_distr|].
  by rewrite E2, E1, app_assoc.
Qed.

Lemma extends_trans (w w1 w2 : World) :
  extends w w1 → extends w1 w2 → extends w w2.
Proof.
  intros [l1 E1] [l2 E2]. exists (l2 ++ l1). by rewrite E2, E1, app_assoc.
Qed.

(** Exhibit the events by which a written-out world continues another. *)
Ltac show_extends :=
  match goal with
  | |- extends {| history := ?h; next := _; Head := _ |}
               {| history := ?l; next := _; Head := _ |} =>
      let new := newer l h in exists new; reflexivity
  end.

Lemma NewNode_extends env c w : extends w (NewNode env c w).2.
Proof.
  destruct w as [h p H]. run_go.
  destruct (NewGoLevelDBWithOpts_err _ _ _ _ _); run_go; [show_extends|].
  destruct (KeyStoreDataDir_ret _ _ _) as [dir [e|]]; run_go; [show_extends|].
  destruct (NewIpfsProxy_err _ _ _); run_go; show_extends.
Qed.

Lemma Start_extends env node w : extends w (Start env node w).2.
Proof.
  destruct w as [h p H]. run_go.
  destruct (InitializeChain_ret _ _ _) as [head [e|]]; run_go; [show_extends|].
  destruct (decide (HTTPEndpoint env _ = "")); run_go; [show_extends|].
  destruct (StartHTTPEndpoint_err _ _ _ _ _ _ _ _); run_go; show_extends.
Qed.

(** *** The four ways [Start] can run *)

Lemma Start_cases env node w :
  ∃ k1 k2 server head,
    let node1 := set_srv (set_config node (Start_config node k1)) server in
    let pre := Start_prologue env node k1 k2 server in
    let init err := InitializeChain (blockchain node) ↦ VRefErr head err in
    let tr := trace_of (Start env node) w in
    let node' := (Start env node w).1 in
    server ≠ nil
    ∧ ((∃ e,
          tr = pre ++ [ init (Some e);
                        log_Error (log node) "Cannot initialize blockchain"
                          ["error"; Error e] ↦ VUnit ]
          ∧ node' = node1)
       ∨ ∃ block baseApi netApi dnaApi accountApi flipApi blockchainApi,
           let l := api_list netApi dnaApi accountApi flipApi blockchainApi in
           let up := pre ++ init None
                         :: Start_bringup env node head block server
                         ++ api_events node server baseApi netApi dnaApi
                              accountApi flipApi blockchainApi in
           (HTTPEndpoint env (RPC (config node)) = ""
            ∧ tr = up ∧ node' = set_rpcAPIs node1 l)
           ∨ (∃ e,
                HTTPEndpoint env (RPC (config node)) ≠ ""
                ∧ tr = up ++ [ rpc_call env node l ↦ VHttp nil nil (Some e);
                               log_Error (log node) "Cannot start RPC endpoint"
                                 ["error"; Error e] ↦ VUnit ]
                ∧ node' = node1)
           ∨ (∃ lst hdl,
                HTTPEndpoint env (RPC (config node)) ≠ ""
                ∧ lst ≠ nil ∧ hdl ≠ nil ∧ lst ≠ hdl
                ∧ tr = up ++ [ rpc_call env node l ↦ VHttp lst hdl None;
                               opened_line env node ]
                ∧ node' = set_rpcAPIs
                            (set_httpHandler (set_httpListener node1 lst) hdl)
                            l)).
Proof.
  destruct w as [h p H]. run_go.
  match goal with
  | |- context [NodeKey_ret env h ?c] => exists (NodeKey_ret env h c)
  end.
  eexists. exists (Npos p).
  destruct (InitializeChain_ret _ _ _) as [head [e|]] eqn:Einit;
    exists head; (split; [unfold nil; intros [=]|]); run_go.
  - left. exists e. read_trace. split; reflexivity.
  - right. rewrite !N.eqb_refl.
    destruct (decide (HTTPEndpoint env _ = "")) as [Hep|Hep]; run_go.
    { do 7 eexists. left. read_trace. split; [exact Hep|]. split; reflexivity. }
    destruct (StartHTTPEndpoint_err _ _ _ _ _ _ _ _) eqn:Ehttp; run_go.
    { do 7 eexists. right. left. eexists. read_trace.
      split; [exact Hep|]. split; reflexivity. }
    do 7 eexists. right. right. do 2 eexists. read_trace.
    refine (conj Hep (conj _ (conj _ (conj _ (conj eq_refl eq_refl)))));
      unfold nil; intros [= Hq]; lia.
Qed.

(** *** [NewNode]: failures, and what it leaves undone *)

Ltac but_last l :=
  match l with
  | [_] => constr:(@List.nil Event)
  | ?x :: ?l' => let r := but_last l' in constr:(x :: r)
  end.

(** Split a written-out trace into its last event and what precedes. *)
Ltac split_last :=
  match goal with
  | |- ∃ pre call v, ?l = pre ++ [call ↦ v] ∧ _ =>
      let p := but_last l in
      exists p; do 2 eexists; split; [reflexivity|]
  end.

(** X1.  [NewNode] fails exactly when one of its three fallible calls
    (opening the database, [KeyStoreDataDir], [NewIpfsProxy]) returns
    an error: it returns that error and stops there, so the failing
    call is the last event, every call before it succeeded, and no
    component has been built. *)
Theorem NewNode_fails_at_first_error env c w e :
  let tr := trace_of (NewNode env c) w in
  ((NewNode env c w).1 = inl e →
   ∃ pre call v,
     tr = pre ++ [call ↦ v]
     ∧ returned_error (call ↦ v) = Some e
     ∧ Forall (fun ev => returned_error ev = None) pre
     ∧ (length tr ≤ 3)%nat
     ∧ count is_component tr = 0)
  ∧ (∀ ev, ev ∈ tr → returned_error ev = Some e →
           (NewNode env c w).1 = inl e).
Proof.
  destruct w as [h p H]. run_go.
  destruct (NewGoLevelDBWithOpts_err _ _ _ _ _) eqn:Edb; run_go;
    [|destruct (KeyStoreDataDir_ret _ _ _) as [dir [e'|]] eqn:Eks; run_go;
      [|destruct (NewIpfsProxy_err _ _ _) eqn:Eipfs; run_go]];
    read_trace; (split; [intros Hres | intros ev Hin Herr]);
    try discriminate Hres;
    try (injection Hres as <-; split_last; split; [reflexivity|];
         split; [by repeat constructor|]; split; [cbn; lia|reflexivity]);
    rewrite !elem_of_cons, elem_of_nil in Hin;
    destruct_or!; subst ev; cbn [returned_error] in Herr;
    congruence.
Qed.

(** X2.  Constructing a node has no effect on running state: whether
    [NewNode] succeeds or fails, it initialises nothing, starts nothing,
    installs no hook, builds no API, closes nothing, and leaves the head
    of every chain where it was. *)
Theorem NewNode_only_constructs env c w :
  let tr := trace_of (NewNode env c) w in
  count is_lifecycle tr = 0
  ∧ count is_api tr = 0
  ∧ count is_close tr = 0
  ∧ Head (NewNode env c w).2 = Head w.
Proof.
  destruct w as [h p H]. run_go.
  destruct (NewGoLevelDBWithOpts_err _ _ _ _ _) eqn:Edb; run_go;
    [|destruct (KeyStoreDataDir_ret _ _ _) as [dir [e'|]] eqn:Eks; run_go;
      [|destruct (NewIpfsProxy_err _ _ _) eqn:Eipfs; run_go]];
    read_trace; by repeat split.
Qed.

(** X3.  The node a successful [NewNode] returns carries the
    configuration it was given and sixteen non-nil components, but its
    [votes], [stop] and [srv] fields are nil, its [rpcAPIs] empty and
    its HTTP listener and handler nil: the Votes pool that was created
    and handed to the engine is not kept in the node. *)
Theorem NewNode_unset_fields env c w node :
  (NewNode env c w).1 = inr node →
  let tr := trace_of (NewNode env c) w in
  config node = c
  ∧ votes node = nil ∧ stop node = nil ∧ srv node = nil
  ∧ rpcAPIs node = [] ∧ httpListener node = nil ∧ httpHandler node = nil
  ∧ Forall (fun r => r ≠ nil)
      [blockchain node; appState node; secStore node; pm node;
       proposals node; consensusEngine node; txpool node; flipKeyPool node;
       log node; keyStore node; fp node; ipfsProxy node; bus node;
       ceremony node; downloader node]
  ∧ ∃ vts, vts ≠ nil ∧ (NewVotes (appState node) ↦ VRef vts) ∈ tr.
Proof.
  intros Hok tr. subst tr.
  destruct (NewNode_ok _ _ _ _ Hok)
    as (dir & db & ipfs & bus_ & ks & sec & app & vts & tx & fkp & chain
        & props & flp & pm_ & dl & eng & cer & lg & -> & -> & Hfresh).
  cbn [config votes stop srv rpcAPIs httpListener httpHandler blockchain
       appState secStore pm proposals consensusEngine txpool flipKeyPool log
       keyStore fp ipfsProxy bus ceremony downloader].
  repeat match goal with
         | F : Forall _ (_ :: _) |- _ => apply Forall_cons_1 in F as [? F]
         end.
  do 7 (split; [reflexivity|]). split.
  - repeat constructor; unfold nil; lia.
  - exists vts. split; [unfold nil; lia|]. unfold NewNode_events. in_trace.
Qed.

(** X4.  In a successful [NewNode] every object handed to a constructor
    is non-nil and was returned by a call made earlier in the same
    [NewNode]: nothing is built over a component that does not exist
    yet. *)
Theorem NewNode_builds_in_dependency_order env c w node :
  (NewNode env c w).1 = inr node →
  well_scoped [] (trace_of (NewNode env c) w).
Proof.
  intros Hok.
  destruct (NewNode_ok _ _ _ _ Hok)
    as (dir & db & ipfs & bus_ & ks & sec & app & vts & tx & fkp & chain
        & props & flp & pm_ & dl & eng & cer & lg & -> & _ & Hfresh).
  repeat match goal with
         | F : Forall _ (_ :: _) |- _ => apply Forall_cons_1 in F as [? F]
         end.
  unfold NewNode_events.
  cbn [well_scoped call_refs returned_ref Datatypes.app].
  repeat split; repeat constructor; try (unfold nil; lia); in_trace.
Qed.

(** *** [OpenDatabase] *)

Lemma int_small z : (- 2 ^ 63 <= z < 2 ^ 63)%Z → int z = z.
Proof.
  intros Hz. unfold int.
  rewrite Z.mod_small; lia.
Qed.

Lemma OpenDatabase_trace env c name cache handles w :
  ∃ v,
    trace_of (OpenDatabase env c name cache handles) w =
      [ NewGoLevelDBWithOpts name (DataDir c)
          {| OpenFilesCacheCapacity := handles;
             BlockCacheCapacity := int (Z.quot cache 2 * MiB);
             WriteBuffer := int (Z.quot cache 4 * MiB);
             Filter_ := NewBloomFilter 10 |} ↦ v ].
Proof.
  destruct w as [h p H]. run_go.
  destruct (NewGoLevelDBWithOpts_err _ _ _ _ _); run_go; read_trace; eauto.
Qed.

(** X5.  [OpenDatabase] makes one call, with the name it was given, the
    configured data directory and [handles] open files.  For a cache of
    0 up to (not including) 2^44 MiB the sizes it passes do not
    overflow: the block cache is [cache / 2] MiB, the write buffer
    [cache / 4] MiB, and the write buffer is never the larger. *)
Theorem OpenDatabase_sizes env c name cache handles w :
  (0 <= cache < 2 ^ 44)%Z →
  ∃ o v,
    trace_of (OpenDatabase env c name cache handles) w =
      [ NewGoLevelDBWithOpts name (DataDir c) o ↦ v ]
    ∧ OpenFilesCacheCapacity o = handles
    ∧ BlockCacheCapacity o = (cache `div` 2 * 1048576)%Z
    ∧ WriteBuffer o = (cache `div` 4 * 1048576)%Z
    ∧ (0 <= WriteBuffer o <= BlockCacheCapacity o)%Z
    ∧ (BlockCacheCapacity o < 2 ^ 63)%Z.
Proof.
  intros Hc.
  destruct (OpenDatabase_trace env c name cache handles w) as [v ->].
  do 2 eexists. split; [reflexivity|].
  cbn [OpenFilesCacheCapacity BlockCacheCapacity WriteBuffer].
  rewrite !Z.quot_div_nonneg by lia. unfold MiB.
  assert (0 <= cache `div` 4 <= cache `div` 2)%Z as Hq.
  { split; [apply Z.div_pos; lia|].
    apply Z.div_le_lower_bound; [lia|].
    pose proof (Z.mul_div_le cache 4). lia. }
  assert (cache `div` 2 < 2 ^ 43)%Z as Hq'
    by (apply Z.div_lt_upper_bound; lia).
  rewrite !int_small by lia. repeat split; lia.
Qed.

(** X6.  The sizes are computed with Go's truncating division and are
    not checked: a cache below 4 MiB (down to -3) gives a write buffer
    of zero, a cache below 2 MiB (down to -1) a block cache of zero,
    and a cache of -2 or less is passed on as a negative block cache. *)
Theorem OpenDatabase_truncates env c name cache handles w :
  ∃ o v,
    trace_of (OpenDatabase env c name cache handles) w =
      [ NewGoLevelDBWithOpts name (DataDir c) o ↦ v ]
    ∧ ((-4 < cache < 4)%Z → WriteBuffer o = 0%Z)
    ∧ ((-2 < cache < 2)%Z → BlockCacheCapacity o = 0%Z)
    ∧ ((- 2 ^ 44 < cache <= -2)%Z → (BlockCacheCapacity o <= - 1048576)%Z).
Proof.
  destruct (OpenDatabase_trace env c name cache handles w) as [v ->].
  do 2 eexists. split; [reflexivity|].
  cbn [BlockCacheCapacity WriteBuffer]. unfold MiB.
  split; [|split]; intros Hc.
  - replace (Z.quot cache 4) with 0%Z; [reflexivity|].
    symmetry. apply Z.quot_small_iff; lia.
  - replace (Z.quot cache 2) with 0%Z; [reflexivity|].
    symmetry. apply Z.quot_small_iff; lia.
  - assert (- 2 ^ 43 <= Z.quot cache 2 <= -1)%Z as Hq.
    { rewrite <- (Z.opp_involutive cache), Z.quot_opp_l by lia.
      rewrite Z.quot_div_nonneg by lia.
      assert (1 <= (- cache) `div` 2 <= 2 ^ 43)%Z; [|lia].
      split.
      - apply Z.div_le_lower_bound; lia.
      - apply Z.div_le_upper_bound; lia. }
    rewrite int_small by lia. lia.
Qed.

(** *** [startRPC] *)

(** X7.  [startRPC] always builds the six API services first.  With an
    empty endpoint it records the five descriptors in [rpcAPIs] without
    calling [StartHTTPEndpoint]; if [StartHTTPEndpoint] fails it returns
    that error and leaves the node untouched, [rpcAPIs] included; if it
    succeeds, the list recorded in [rpcAPIs] is the very list that was
    registered with the endpoint. *)
Theorem startRPC_outcomes env node w :
  let r := startRPC env node w in
  let node' := r.1.1 in
  let err := r.1.2 in
  let tr := emitted w r.2 in
  ∃ baseApi netApi dnaApi accountApi flipApi blockchainApi,
    let l := api_list netApi dnaApi accountApi flipApi blockchainApi in
    let built := api_events node (srv node) baseApi netApi dnaApi accountApi
                   flipApi blockchainApi in
    (HTTPEndpoint env (RPC (config node)) = ""
     ∧ tr = built ∧ err = None ∧ node' = set_rpcAPIs node l)
    ∨ (∃ e,
         HTTPEndpoint env (RPC (config node)) ≠ ""
         ∧ tr = built ++ [rpc_call env node l ↦ VHttp nil nil (Some e)]
         ∧ err = Some e ∧ node' = node)
    ∨ (∃ lst hdl,
         HTTPEndpoint env (RPC (config node)) ≠ ""
         ∧ tr = built ++ [rpc_call env node l ↦ VHttp lst hdl None;
                          opened_line env node]
         ∧ err = None
         ∧ node' = set_rpcAPIs
                     (set_httpHandler (set_httpListener node lst) hdl) l).
Proof.
  destruct w as [h p H]. run_go.
  destruct (decide (HTTPEndpoint env _ = "")) as [Hep|Hep]; run_go.
  { do 6 eexists. left. read_trace. by repeat split. }
  destruct (StartHTTPEndpoint_err _ _ _ _ _ _ _ _) eqn:Ehttp; run_go.
  { do 6 eexists. right. left. eexists. read_trace. by repeat split. }
  do 6 eexists. right. right. do 2 eexists. read_trace. by repeat split.
Qed.

(** *** [Start]: RPC, the p2p configuration, the node key *)

Lemma count_zero_elem (p : Event → bool) l ev :
  count p l = 0 → ev ∈ l → p ev = false.
Proof.
  unfold count. intros Hc Hin. apply list_elem_of_In in Hin.
  destruct (p ev) eqn:Hp; [|done].
  assert (In ev (List.filter p l)) as Hf by (apply filter_In; auto).
  destruct (List.filter p l); [destruct Hf | discriminate Hc].
Qed.

(** X8.  A failure to open the RPC endpoint does not undo the start:
    when [StartHTTPEndpoint] fails inside [Start], the engine, the p2p
    server and the protocol manager have been started before and are not
    stopped, the error is logged as "Cannot start RPC endpoint" and that
    line is the last thing [Start] does; [rpcAPIs], the listener and the
    handler stay as they were. *)
Theorem Start_survives_rpc_failure env node w ep a m c v t l h e :
  let tr := trace_of (Start env node) w in
  let node' := (Start env node w).1 in
  (StartHTTPEndpoint ep a m c v t ↦ VHttp l h (Some e)) ∈ tr →
  (∃ pre,
     tr = pre ++ [ StartHTTPEndpoint ep a m c v t ↦ VHttp l h (Some e);
                   log_Error (log node) "Cannot start RPC endpoint"
                     ["error"; Error e] ↦ VUnit ]
     ∧ (Engine_Start (consensusEngine node) ↦ VUnit) ∈ pre
     ∧ (Server_Start (srv node') ↦ VUnit) ∈ pre
     ∧ (Pm_Start (pm node) ↦ VUnit) ∈ pre)
  ∧ count is_close tr = 0
  ∧ rpcAPIs node' = rpcAPIs node
  ∧ httpListener node' = httpListener node
  ∧ httpHandler node' = httpHandler node.
Proof.
  intros tr node'. subst tr node'.
  destruct (Start_cases env node w) as (k1 & k2 & server & head & Hcases).
  cbn zeta in Hcases.
  destruct Hcases as
    (_ & [(e0 & -> & ->)
         | (block & base & net & dna & acc & flip & bcn
            & [(Hep & -> & ->)
              | [(e0 & Hep & -> & ->) | (lst & hdl & Hep & _ & _ & _ & -> & ->)]])]);
    intros Hin.
  - exfalso. revert Hin. unfold Start_prologue. cbn [app].
    rewrite !elem_of_cons, elem_of_nil. intros Hin.
    destruct_or!; discriminate || done.
  - exfalso. apply (count_zero_elem is_StartHTTPEndpoint) in Hin; [discriminate Hin|reflexivity].
  - apply elem_of_app in Hin as [Hin|Hin].
    { exfalso.
      apply (count_zero_elem is_StartHTTPEndpoint) in Hin; [discriminate Hin|reflexivity]. }
    rewrite !elem_of_cons, elem_of_nil in Hin.
    destruct Hin as [Hin|[Hin|[]]]; [|discriminate Hin].
    rewrite Hin. injection Hin as _ _ _ _ _ _ _ _ ->.
    split; [|by repeat split].
    eexists. split; [reflexivity|].
    unfold Start_prologue, Start_bringup, api_events. cbn [app srv set_srv].
    repeat split; in_trace.
  - exfalso. apply elem_of_app in Hin as [Hin|Hin].
    { apply (count_zero_elem is_StartHTTPEndpoint) in Hin; [discriminate Hin|reflexivity]. }
    rewrite !elem_of_cons, elem_of_nil in Hin.
    destruct Hin as [Hin|[Hin|[]]]; discriminate Hin.
Qed.

(** X9.  When [StartHTTPEndpoint] succeeds inside [Start], the node
    keeps the listener and the handler it returned, [rpcAPIs] holds the
    five descriptors that were registered with the endpoint, and the
    p2p server given to the net API is the server stored in [srv], the
    one that was started. *)
Theorem Start_publishes_rpc env node w ep a m c v t l h :
  let tr := trace_of (Start env node) w in
  let node' := (Start env node w).1 in
  (StartHTTPEndpoint ep a m c v t ↦ VHttp l h None) ∈ tr →
  httpListener node' = l ∧ httpHandler node' = h
  ∧ rpcAPIs node' = a
  ∧ map Namespace a = ["net"; "dna"; "account"; "flip"; "bcn"]
  ∧ ep = HTTPEndpoint env (RPC (config node)) ∧ ep ≠ ""
  ∧ (Server_Start (srv node') ↦ VUnit) ∈ tr
  ∧ (∃ netApi,
       (NewNetApi (pm node) (srv node') (ipfsProxy node) ↦ VRef netApi) ∈ tr
       ∧ Service <$> a !! 0 = Some netApi)
  ∧ last tr = Some (opened_line env node).
Proof.
  intros tr node'. subst tr node'.
  destruct (Start_cases env node w) as (k1 & k2 & server & head & Hcases).
  cbn zeta in Hcases.
  destruct Hcases as
    (_ & [(e0 & -> & ->)
         | (block & base & net & dna & acc & flip & bcn
            & [(Hep & -> & ->)
              | [(e0 & Hep & -> & ->) | (lst & hdl & Hep & _ & _ & _ & -> & ->)]])]);
    intros Hin.
  - exfalso. revert Hin. unfold Start_prologue. cbn [app].
    rewrite !elem_of_cons, elem_of_nil. intros Hin.
    destruct_or!; discriminate || done.
  - exfalso. apply (count_zero_elem is_StartHTTPEndpoint) in Hin; [discriminate Hin|reflexivity].
  - exfalso. apply elem_of_app in Hin as [Hin|Hin].
    { apply (count_zero_elem is_StartHTTPEndpoint) in Hin; [discriminate Hin|reflexivity]. }
    rewrite !elem_of_cons, elem_of_nil in Hin.
    destruct Hin as [Hin|[Hin|[]]]; discriminate Hin.
  - apply elem_of_app in Hin as [Hin|Hin].
    { exfalso.
      apply (count_zero_elem is_StartHTTPEndpoint) in Hin; [discriminate Hin|reflexivity]. }
    rewrite !elem_of_cons, elem_of_nil in Hin.
    destruct Hin as [Hin|[Hin|[]]]; [|discriminate Hin].
    injection Hin as -> -> -> -> -> -> -> ->.
    split; [reflexivity|]. split; [reflexivity|]. split; [reflexivity|].
    split; [reflexivity|]. split; [reflexivity|]. split; [exact Hep|].
    unfold Start_prologue, Start_bringup, api_events, rpc_call.
    cbn [app srv set_srv set_rpcAPIs set_httpHandler set_httpListener].
    split; [in_trace|]. split; [|reflexivity].
    exists net. split; [in_trace|reflexivity].
Qed.

(** X10.  Whatever the outcome, [Start] replaces the protocol list of
    the p2p configuration by the single protocol "AppName" (version 1,
    length 35) run by the protocol manager's [HandleNewPeer], stores in
    it a key that [NodeKey] returned, leaves the rest of the
    configuration alone, and builds the p2p server kept in [srv] from
    that configuration; then it asks for the node key again and adds it
    to the secret store, immediately before [InitializeChain]. *)
Theorem Start_rewrites_p2p_config env node w :
  let tr := trace_of (Start env node) w in
  let node' := (Start env node w).1 in
  Protocols (P2P (config node')) =
    [ {| Name := "AppName"; Version_ := 1; Run := HandleNewPeer (pm node);
         Length := 35 |} ]
  ∧ (p2p_rest (P2P (config node')) = p2p_rest (P2P (config node))
     ∧ DataDir (config node') = DataDir (config node)
     ∧ Consensus (config node') = Consensus (config node)
     ∧ IpfsConf (config node') = IpfsConf (config node)
     ∧ RPC (config node') = RPC (config node)
     ∧ cfg_rest (config node') = cfg_rest (config node))
  ∧ srv node' ≠ nil
  ∧ (Server_lit (P2P (config node')) ↦ VRef (srv node')) ∈ tr
  ∧ ∃ pre k2 head err post,
      tr = pre ++ (SecStore_AddKey (secStore node) (FromECDSA env k2) ↦ VUnit)
               :: (InitializeChain (blockchain node) ↦ VRefErr head err)
               :: post
      ∧ (∃ c1, (NodeKey c1 ↦ VRef (PrivateKey (P2P (config node')))) ∈ pre)
      ∧ (NodeKey (config node') ↦ VRef k2) ∈ pre
      ∧ count is_lifecycle pre = 3.
Proof.
  intros tr node'. subst tr node'.
  destruct (Start_cases env node w) as (k1 & k2 & server & head & Hcases).
  cbn zeta in Hcases.
  destruct Hcases as
    (Hsrv & [(e0 & -> & ->)
         | (block & base & net & dna & acc & flip & bcn
            & [(Hep & -> & ->)
              | [(e0 & Hep & -> & ->) | (lst & hdl & Hep & _ & _ & _ & -> & ->)]])]);
    (split; [reflexivity|]); (split; [by repeat split|]);
    (split; [exact Hsrv|]);
    unfold Start_prologue;
    cbn [app srv config set_srv set_config set_rpcAPIs set_httpHandler
         set_httpListener];
    (split; [in_trace|]);
    exists (take 3 (Start_prologue env node k1 k2 server)), k2, head;
    do 2 eexists; unfold Start_prologue; cbn [take app];
    (split; [reflexivity|]); (split; [eexists; in_trace|]);
    (split; [in_trace|reflexivity]).
Qed.

(** X11.  If [NodeKey] answers with the same key [k] every time, the key
    [Start] adds to the secret store is the private key it has put in
    the p2p configuration and in the server built from it. *)
Theorem Start_uses_one_key env node w k :
  (∀ h c, NodeKey_ret env h c = k) →
  let tr := trace_of (Start env node) w in
  let node' := (Start env node w).1 in
  PrivateKey (P2P (config node')) = k
  ∧ (SecStore_AddKey (secStore node) (FromECDSA env k) ↦ VUnit) ∈ tr
  ∧ ∃ p2p, (Server_lit p2p ↦ VRef (srv node')) ∈ tr ∧ PrivateKey p2p = k.
Proof.
  intros Hk. destruct w as [hist p H]. run_go. rewrite !Hk.
  destruct (InitializeChain_ret _ _ _) as [head [e|]]; run_go;
    [|rewrite !N.eqb_refl;
      destruct (decide (HTTPEndpoint env _ = "")); run_go;
      [|destruct (StartHTTPEndpoint_err _ _ _ _ _ _ _ _); run_go]];
    read_trace;
    (split; [reflexivity|]); (split; [in_trace|]);
    eexists; (split; [in_trace|reflexivity]).
Qed.

(** *** [startHTTP] and [stopHTTP] together *)

(** X12.  On a node whose listener and handler are nil, [stopHTTP] after
    [startHTTP] gives the node back as it was.  If the endpoint was
    opened, [stopHTTP] closes the listener that [StartHTTPEndpoint]
    returned, logs "HTTP endpoint closed" and stops the handler it
    returned, in this order; if it was not, [stopHTTP] does nothing. *)
Theorem startHTTP_stopHTTP_roundtrip
    env node endpoint apis modules cors vhosts timeouts w :
  httpListener node = nil → httpHandler node = nil →
  let r1 := startHTTP env node endpoint apis modules cors vhosts timeouts w in
  let r2 := stopHTTP env r1.1.1 r1.2 in
  let call := StartHTTPEndpoint endpoint apis modules cors vhosts timeouts in
  r2.1 = node
  ∧ (∀ l h, (call ↦ VHttp l h None) ∈ emitted w r1.2 →
            emitted r1.2 r2.2 = closing_events env node l h)
  ∧ (count is_StartHTTPEndpoint (emitted w r1.2) = 0 ∨ r1.1.2 ≠ None →
     r2.2 = r1.2).
Proof.
  destruct w as [hist p H].
  destruct node as [cfg chain app sec pm_ stp props vts eng tx fkp rpcs
                    lst hdl lg sv ks flp ipfs bs cer dl].
  cbn [httpListener httpHandler]. intros -> ->.
  unfold startHTTP, stopHTTP.
  destruct (decide (endpoint = "")) as [Hep|Hep]; run_go;
    [|destruct (StartHTTPEndpoint_err _ _ _ _ _ _ _ _) eqn:Ehttp; run_go];
    cbn [httpListener httpHandler set_httpListener set_httpHandler log config];
    repeat (case_decide; try done; run_go;
            cbn [httpListener httpHandler set_httpListener set_httpHandler
                 log config]);
    read_trace; try rewrite emitted_refl.
  - split; [reflexivity|]. split; [|done].
    intros l h Hin. by apply elem_of_nil in Hin.
  - split; [reflexivity|]. split; [|done].
    intros l h Hin. rewrite !elem_of_cons, elem_of_nil in Hin.
    destruct Hin as [Hin|[]]. discriminate Hin.
  - split; [reflexivity|]. split.
    + intros l h Hin. rewrite !elem_of_cons, elem_of_nil in Hin.
      destruct Hin as [Hin|[Hin|[]]]; [|discriminate Hin].
      by injection Hin as <- <-.
    + intros [Hc|Hc]; [discriminate Hc|done].
Qed.

(** X13.  [startHTTP] does not look at a listener that is already set:
    after two successful calls the node holds the second listener and
    handler only, nothing has been closed, and a following [stopHTTP]
    closes the second pair; the first listener is never closed. *)
Theorem startHTTP_twice_keeps_second
    env node ep apis mods cors vhosts t ep' apis' mods' cors' vhosts' t' w
    l1 h1 l2 h2 :
  let r1 := startHTTP env node ep apis mods cors vhosts t w in
  let r2 := startHTTP env r1.1.1 ep' apis' mods' cors' vhosts' t' r1.2 in
  let r3 := stopHTTP env r2.1.1 r2.2 in
  (StartHTTPEndpoint ep apis mods cors vhosts t ↦ VHttp l1 h1 None)
    ∈ emitted w r1.2 →
  (StartHTTPEndpoint ep' apis' mods' cors' vhosts' t' ↦ VHttp l2 h2 None)
    ∈ emitted r1.2 r2.2 →
  l1 ≠ l2 ∧ h1 ≠ h2
  ∧ httpListener r2.1.1 = l2 ∧ httpHandler r2.1.1 = h2
  ∧ count is_close (emitted w r2.2) = 0
  ∧ emitted r2.2 r3.2 = closing_events env node l2 h2
  ∧ (Listener_Close l1 ↦ VUnit) ∉ emitted w r3.2.
Proof.
  destruct w as [hist p H].
  destruct node as [cfg chain app sec pm_ stp props vts eng tx fkp rpcs
                    lst hdl lg sv ks flp ipfs bs cer dl].
  unfold startHTTP, stopHTTP.
  destruct (decide (ep = "")) as [Hep|Hep]; run_go;
    [rewrite emitted_refl; intros Hin; by apply elem_of_nil in Hin|].
  destruct (StartHTTPEndpoint_err _ _ _ _ _ _ _ _); run_go.
  { read_trace. intros Hin. rewrite !elem_of_cons, elem_of_nil in Hin.
    destruct Hin as [Hin|[]]. discriminate Hin. }
  destruct (decide (ep' = "")) as [Hep'|Hep']; run_go;
    [intros _; rewrite emitted_refl; intros Hin; by apply elem_of_nil in Hin|].
  destruct (StartHTTPEndpoint_err _ _ _ _ _ _ _ _); run_go.
  { intros _. read_trace. intros Hin. rewrite !elem_of_cons, elem_of_nil in Hin.
    destruct Hin as [Hin|[]]. discriminate Hin. }
  cbn [httpListener httpHandler set_httpListener set_httpHandler log config].
  repeat (case_decide; try done; run_go;
          cbn [httpListener httpHandler set_httpListener set_httpHandler
               log config]).
  read_trace. intros Hin1 Hin2.
  rewrite !elem_of_cons, elem_of_nil in Hin1, Hin2.
  destruct Hin1 as [Hin1|[Hin1|[]]]; [|discriminate Hin1].
  destruct Hin2 as [Hin2|[Hin2|[]]]; [|discriminate Hin2].
  injection Hin1 as -> ->. injection Hin2 as -> ->.
  split; [intros [= Hq]; lia|]. split; [intros [= Hq]; lia|].
  do 4 (split; [reflexivity|]).
  rewrite !elem_of_cons, elem_of_nil. intros Hin.
  destruct_or!; try discriminate; try done.
  injection Hin as Hq. lia.
Qed.

(** *** [StartDefaultNode] end to end *)

Lemma StartDefaultNode_log_trace env path w :
  ∃ h err,
    (err = None ∨ h = nil)
    ∧ history (StartDefaultNode_log env path w).2 =
        [ Root_SetHandler
            (LvlFilterHandler LvlInfo
               (MultiHandler (StreamHandler_Stdout LogfmtFormat)
                  (HandlerRef h))) ↦ VUnit;
          FileHandler (Join env path "output.log") (TerminalFormat false)
            ↦ VRefErr h err ] ++ history w.
Proof.
  destruct w as [hist p H]. run_go.
  destruct (FileHandler_err _ _ _ _) as [e|]; run_go.
  - exists nil, (Some e). split; [by right|reflexivity].
  - exists (Npos p), None. split; [by left|reflexivity].
Qed.

(** X14.  [StartDefaultNode] sets up logging first, to the terminal and
    to "output.log" under the given path; a log file that cannot be
    opened is not an error, the root handler is then installed over a
    nil file handler.  Then comes everything [NewNode] does on the
    default configuration, and, only if [NewNode] succeeded, everything
    [Start] does on the node it returned. *)
Theorem StartDefaultNode_trace env path w :
  let w1 := (StartDefaultNode_log env path w).2 in
  let r := NewNode env (StartDefaultNode_config env path) w1 in
  ∃ h err,
    (err = None ∨ h = nil)
    ∧ trace_of (StartDefaultNode env path) w =
        [ FileHandler (Join env path "output.log") (TerminalFormat false)
            ↦ VRefErr h err;
          Root_SetHandler
            (LvlFilterHandler LvlInfo
               (MultiHandler (StreamHandler_Stdout LogfmtFormat)
                  (HandlerRef h))) ↦ VUnit ]
        ++ trace_of (NewNode env (StartDefaultNode_config env path)) w1
        ++ match r.1 with
           | inl _ => []
           | inr n => trace_of (Start env n) r.2
           end.
Proof.
  intros w1 r.
  destruct (StartDefaultNode_log_trace env path w) as (h & err & Hh & Hlog).
  exists h, err. split; [exact Hh|].
  assert (extends w w1) as E1 by (eexists; exact Hlog).
  assert (extends w1 r.2) as E2 by apply NewNode_extends.
  assert (emitted w w1 = rev
            [ Root_SetHandler
                (LvlFilterHandler LvlInfo
                   (MultiHandler (StreamHandler_Stdout LogfmtFormat)
                      (HandlerRef h))) ↦ VUnit;
              FileHandler (Join env path "output.log") (TerminalFormat false)
                ↦ VRefErr h err ]) as Hsetup
    by (apply emitted_rev; exact Hlog).
  cbn [rev app] in Hsetup.
  unfold trace_of. rewrite StartDefaultNode_unfold. cbn zeta.
  fold w1. fold r. rewrite <- Hsetup.
  destruct r as [[e|n] w2] eqn:Er; cbn [fst snd] in *.
  - rewrite app_nil_r. by apply emitted_trans.
  - pose proof (Start_extends env n w2) as E3.
    destruct (Start env n w2) as [u w3]; cbn [fst snd] in *.
    rewrite (emitted_trans w w2 w3); [|by eapply extends_trans|exact E3].
    by rewrite (emitted_trans w w1 w2), <- app_assoc.
Qed.

(** X15.  [NewNode] followed by [Start], when the chain comes up: the
    chain that is initialised and receives the epoch hook is the chain
    the consensus engine and the ceremony were built over; the hook is
    the [ApplyNewEpoch] of that ceremony; the engine and the protocol
    manager that are started are the ones built in [NewNode]; and the
    app state and transaction pool that are initialised are the ones the
    engine was given. *)
Theorem NewNode_then_Start_wiring env c w node head :
  (NewNode env c w).1 = inr node →
  let built := trace_of (NewNode env c) w in
  let run := trace_of (Start env node) (NewNode env c w).2 in
  (InitializeChain (blockchain node) ↦ VRefErr head None) ∈ run →
  ∃ chain pm_ eng cer props vts app tx sec dl bus_ flp db fkp,
    (NewEngine chain pm_ props (Consensus c) app vts tx sec dl ↦ VRef eng)
      ∈ built
    ∧ (NewValidationCeremony app bus_ flp pm_ sec db tx chain dl ↦ VRef cer)
        ∈ built
    ∧ (NetProtocolManager chain props vts tx flp bus_ fkp (P2P c) ↦ VRef pm_)
        ∈ built
    ∧ (InitializeChain chain ↦ VRefErr head None) ∈ run
    ∧ (AppState_Initialize app (Height env head) ↦ VUnit) ∈ run
    ∧ (TxPool_Initialize tx head ↦ VUnit) ∈ run
    ∧ (ProvideApplyNewEpochFunc chain (ApplyNewEpoch cer) ↦ VUnit) ∈ run
    ∧ (Engine_Start eng ↦ VUnit) ∈ run
    ∧ (Pm_Start pm_ ↦ VUnit) ∈ run.
Proof.
  intros Hok built run. subst built run.
  destruct (NewNode_ok _ _ _ _ Hok)
    as (dir & db & ipfs & bus_ & ks & sec & app & vts & tx & fkp & chain
        & props & flp & pm_ & dl & eng & cer & lg & -> & -> & _).
  match goal with
  | |- context [Start env ?n] =>
      destruct (Start_run env n (NewNode env c w).2)
        as (k1 & k2 & server & head' & [e'|] & Hrun)
  end; cbn zeta in Hrun.
  - destruct Hrun as [-> _]. unfold Start_prologue. cbn [Datatypes.app].
    intros Hin. rewrite !elem_of_cons, elem_of_nil in Hin.
    destruct_or!; try discriminate; done.
  - destruct Hrun as (block & rpc & -> & Hrpc).
    unfold Start_prologue, Start_bringup, NewNode_events.
    cbn [Datatypes.app blockchain appState txpool ceremony consensusEngine pm
         secStore flipKeyPool fp].
    intros Hin.
    assert (head' = head) as ->.
    { rewrite !elem_of_cons in Hin. destruct_or!; try discriminate.
      - by injection Hin.
      - by apply (rpc_elem _ _ Hrpc) in Hin. }
    exists chain, pm_, eng, cer, props, vts, app, tx, sec, dl, bus_, flp, db,
      fkp.
    repeat split; in_trace.
Qed.

(** *** [WaitForStop] *)

Lemma Start_keeps_stop env node w : stop (Start env node w).1 = stop node.
Proof.
  destruct (Start_cases env node w) as (k1 & k2 & server & head & Hcases).
  cbn zeta in Hcases.
  by destruct Hcases as
    (_ & [(e0 & _ & ->)
         | (block & base & net & dna & acc & flip & bcn
            & [(Hep & _ & ->)
              | [(e0 & Hep & _ & ->) | (lst & hdl & Hep & _ & _ & _ & _ & ->)]])]).
Qed.

(** X16.  Nothing in [node.go] ever creates the [stop] channel: it is
    nil in the node [NewNode] returns and [Start] does not touch it.  So
    on such a node, started or not, [WaitForStop] blocks on its receive
    for ever and never destroys the secret store, whatever is signalled
    on any channel. *)
Theorem WaitForStop_never_returns env c w node signalled :
  (NewNode env c w).1 = inr node →
  stop node = nil
  ∧ WaitForStop signalled node = BlocksForever
  ∧ ∀ env' w', stop (Start env' node w').1 = nil
               ∧ WaitForStop signalled (Start env' node w').1 = BlocksForever.
Proof.
  intros Hok.
  assert (stop node = nil) as Hstop.
  { destruct (NewNode_ok _ _ _ _ Hok)
      as (dir & db & ipfs & bus_ & ks & sec & app & vts & tx & fkp & chain
          & props & flp & pm_ & dl & eng & cer & lg & _ & -> & _).
    reflexivity. }
  split; [exact Hstop|]. split.
  - unfold WaitForStop. by rewrite decide_True.
  - intros env' w'.
    assert (stop (Start env' node w').1 = nil) as Hs
      by (by rewrite Start_keeps_stop).
    split; [exact Hs|]. unfold WaitForStop. by rewrite decide_True.
Qed.

(** *** What [Start] leaves alone; a failed [StartDefaultNode] *)

(** X17.  [Start] writes only the configuration, [srv], [rpcAPIs] and
    the HTTP listener and handler: every reference to a component that
    [NewNode] put in the node, and the [stop] channel, are the same
    after [Start], however it ran. *)
Theorem Start_keeps_components env node w :
  let node' := (Start env node w).1 in
  blockchain node' = blockchain node ∧ appState node' = appState node
  ∧ secStore node' = secStore node ∧ pm node' = pm node
  ∧ stop node' = stop node ∧ proposals node' = proposals node
  ∧ votes node' = votes node
  ∧ consensusEngine node' = consensusEngine node
  ∧ txpool node' = txpool node ∧ flipKeyPool node' = flipKeyPool node
  ∧ log node' = log node ∧ keyStore node' = keyStore node
  ∧ fp node' = fp node ∧ ipfsProxy node' = ipfsProxy node
  ∧ bus node' = bus node ∧ ceremony node' = ceremony node
  ∧ downloader node' = downloader node.
Proof.
  intros node'. subst node'.
  destruct (Start_cases env node w) as (k1 & k2 & server & head & Hcases).
  cbn zeta in Hcases.
  destruct Hcases as
    (_ & [(e0 & _ & ->)
         | (block & base & net & dna & acc & flip & bcn
            & [(Hep & _ & ->)
              | [(e0 & Hep & _ & ->) | (lst & hdl & Hep & _ & _ & _ & _ & ->)]])]);
    repeat split; reflexivity.
Qed.

(** Unfold [StartDefaultNode] and [NewNode], leaving [Start] folded. *)
Ltac run_setup :=
  cbv beta iota zeta delta
    [trace_of NewNode OpenDatabase StartDefaultNode StartDefaultNode_log
     StartDefaultNode_config construct_err construct perform consult emit
     alloc config_KeyStoreDataDir mbind M_bind mret M_ret fst snd history
     next Head] in *.

(** X18.  When [NewNode] fails, [StartDefaultNode] returns the message
    of its error having done nothing but set up logging and make the
    calls that failed or preceded the failure: no component has been
    built, nothing initialised or started, no API created. *)
Theorem StartDefaultNode_failure_is_clean env path w e :
  (NewNode env (StartDefaultNode_config env path)
     (StartDefaultNode_log env path w).2).1 = inl e →
  let tr := trace_of (StartDefaultNode env path) w in
  (StartDefaultNode env path w).1 = Error e
  ∧ count is_component tr = 0
  ∧ count is_lifecycle tr = 0
  ∧ count is_api tr = 0
  ∧ (3 ≤ length tr ≤ 5)%nat.
Proof.
  destruct w as [hist p H]. run_setup.
  destruct (FileHandler_err _ _ _ _); run_setup;
    (destruct (NewGoLevelDBWithOpts_err _ _ _ _ _); run_setup;
     [|destruct (KeyStoreDataDir_ret _ _ _) as [dir [e'|]]; run_setup;
       [|destruct (NewIpfsProxy_err _ _ _); run_setup]]);
    intros Hres; try discriminate Hres;
    injection Hres as <-; read_trace;
    (split; [reflexivity|]); (split; [reflexivity|]);
    (split; [reflexivity|]); (split; [reflexivity|]); cbn [length]; lia.
Qed.

Lemma StartDefaultNode_failure_is_clean_witness :
  let tr := trace_of (StartDefaultNode env_db_fails "/home/idena") World0 in
  (NewNode env_db_fails (StartDefaultNode_config env_db_fails "/home/idena")
     (StartDefaultNode_log env_db_fails "/home/idena" World0).2).1 = inl boom
  ∧ (StartDefaultNode env_db_fails "/home/idena" World0).1 = "disk full"
  ∧ count is_lifecycle tr = 0.
Proof.
  intros tr.
  assert ((NewNode env_db_fails
             (StartDefaultNode_config env_db_fails "/home/idena")
             (StartDefaultNode_log env_db_fails "/home/idena" World0).2).1
          = inl boom) as Hres by (vm_compute; reflexivity).
  destruct (StartDefaultNode_failure_is_clean env_db_fails "/home/idena"
              World0 boom Hres) as (Hmsg & _ & Hlife & _).
  split; [exact Hres|]. split; [exact Hmsg|exact Hlife].
Defined.

(** *** At the sample inputs *)

Lemma NewNode_fails_at_first_error_witness :
  let tr := trace_of (NewNode env_keystore_fails sample_config) World0 in
  (NewNode env_keystore_fails sample_config World0).1 = inl boom
  ∧ (∃ pre call v,
       tr = pre ++ [call ↦ v]
       ∧ returned_error (call ↦ v) = Some boom
       ∧ (length tr ≤ 3)%nat
       ∧ count is_component tr = 0).
Proof.
  intros tr.
  assert ((NewNode env_keystore_fails sample_config World0).1 = inl boom)
    as Hres by (vm_compute; reflexivity).
  assert ((KeyStoreDataDir sample_config
             ↦ VStrErr "/var/idena/keystore" (Some boom)) ∈ tr) as Hin
    by (vm_compute; in_trace).
  destruct (NewNode_fails_at_first_error env_keystore_fails sample_config
              World0 boom) as [Hfail Hback].
  split; [exact (Hback _ Hin eq_refl)|].
  destruct (Hfail Hres) as (pre & call & v & Htr & Herr & _ & Hlen & Hcomp).
  exists pre, call, v.
  split; [exact Htr|]. split; [exact Herr|]. split; [exact Hlen|exact Hcomp].
Defined.

Lemma NewNode_unset_fields_witness :
  (NewNode env_ok sample_config World0).1 = inr built_node
  ∧ votes built_node = nil ∧ stop built_node = nil ∧ srv built_node = nil
  ∧ ∃ vts, vts ≠ nil
           ∧ (NewVotes 105%N ↦ VRef vts)
               ∈ trace_of (NewNode env_ok sample_config) World0.
Proof.
  split; [exact NewNode_ok_sample|].
  destruct (NewNode_unset_fields env_ok sample_config World0 built_node
              NewNode_ok_sample)
    as (_ & Hv & Hs & Hsrv & _ & _ & _ & _ & Hvotes).
  split; [exact Hv|]. split; [exact Hs|]. split; [exact Hsrv|exact Hvotes].
Defined.

Lemma NewNode_builds_in_dependency_order_witness :
  (NewNode env_ok sample_config World0).1 = inr built_node
  ∧ well_scoped [] (trace_of (NewNode env_ok sample_config) World0).
Proof.
  split; [exact NewNode_ok_sample|].
  exact (NewNode_builds_in_dependency_order env_ok sample_config World0
           built_node NewNode_ok_sample).
Defined.

Lemma OpenDatabase_sizes_witness :
  (0 <= 16 < 2 ^ 44)%Z
  ∧ ∃ o v,
      trace_of (OpenDatabase env_ok sample_config "idenachain" 16 16) World0 =
        [ NewGoLevelDBWithOpts "idenachain" "/var/idena" o ↦ v ]
      ∧ BlockCacheCapacity o = 8388608%Z
      ∧ WriteBuffer o = 4194304%Z.
Proof.
  assert (0 <= 16 < 2 ^ 44)%Z as Hc by lia.
  split; [exact Hc|].
  destruct (OpenDatabase_sizes env_ok sample_config "idenachain" 16 16 World0
              Hc) as (o & v & Htr & _ & Hb & Hw & _).
  exists o, v. split; [exact Htr|]. split; [exact Hb|exact Hw].
Defined.

Lemma OpenDatabase_truncates_witness :
  (∃ o v,
     trace_of (OpenDatabase env_ok sample_config "idenachain" 3 16) World0 =
       [ NewGoLevelDBWithOpts "idenachain" "/var/idena" o ↦ v ]
     ∧ WriteBuffer o = 0%Z)
  ∧ (∃ o v,
       trace_of (OpenDatabase env_ok sample_config "idenachain" 1 16) World0 =
         [ NewGoLevelDBWithOpts "idenachain" "/var/idena" o ↦ v ]
       ∧ BlockCacheCapacity o = 0%Z)
  ∧ (∃ o v,
       trace_of (OpenDatabase env_ok sample_config "idenachain" (-3) 16)
         World0 =
         [ NewGoLevelDBWithOpts "idenachain" "/var/idena" o ↦ v ]
       ∧ (BlockCacheCapacity o <= - 1048576)%Z).
Proof.
  split; [|split].
  - destruct (OpenDatabase_truncates env_ok sample_config "idenachain" 3 16
                World0) as (o & v & Htr & Hw & _ & _).
    exists o, v. split; [exact Htr|]. apply Hw. lia.
  - destruct (OpenDatabase_truncates env_ok sample_config "idenachain" 1 16
                World0) as (o & v & Htr & _ & Hb & _).
    exists o, v. split; [exact Htr|]. apply Hb. lia.
  - destruct (OpenDatabase_truncates env_ok sample_config "idenachain" (-3) 16
                World0) as (o & v & Htr & _ & _ & Hn).
    exists o, v. split; [exact Htr|]. apply Hn. lia.
Defined.

Lemma Start_survives_rpc_failure_witness :
  let tr := trace_of (Start env_http_fails sample_node) World0 in
  let node' := (Start env_http_fails sample_node World0).1 in
  let call := StartHTTPEndpoint "localhost:9009"
                (api_list 102%N 103%N 104%N 105%N 106%N) ["net"; "dna"] ["*"]
                ["localhost"] 3%N in
  (call ↦ VHttp nil nil (Some boom)) ∈ tr
  ∧ (∃ pre,
       tr = pre ++ [ call ↦ VHttp nil nil (Some boom);
                     log_Error 19%N "Cannot start RPC endpoint"
                       ["error"; "disk full"] ↦ VUnit ]
       ∧ (Engine_Start 16%N ↦ VUnit) ∈ pre)
  ∧ rpcAPIs node' = [] ∧ httpListener node' = nil.
Proof.
  intros tr node' call.
  assert ((call ↦ VHttp nil nil (Some boom)) ∈ tr) as Hin
    by (vm_compute; in_trace).
  destruct (Start_survives_rpc_failure env_http_fails sample_node World0
              _ _ _ _ _ _ _ _ _ Hin)
    as ((pre & Htr & Heng & _) & _ & Hapis & Hl & _).
  split; [exact Hin|]. split; [|split; [exact Hapis|exact Hl]].
  exists pre. split; [exact Htr|exact Heng].
Defined.

Lemma Start_publishes_rpc_witness :
  let tr := trace_of (Start env_ok sample_node) World0 in
  let node' := (Start env_ok sample_node World0).1 in
  let a := api_list 102%N 103%N 104%N 105%N 106%N in
  (StartHTTPEndpoint "localhost:9009" a ["net"; "dna"] ["*"] ["localhost"] 3%N
   ↦ VHttp 107%N 108%N None) ∈ tr
  ∧ httpListener node' = 107%N ∧ httpHandler node' = 108%N
  ∧ rpcAPIs node' = a
  ∧ (Server_Start (srv node') ↦ VUnit) ∈ tr.
Proof.
  intros tr node' a.
  assert ((StartHTTPEndpoint "localhost:9009" a ["net"; "dna"] ["*"]
             ["localhost"] 3%N ↦ VHttp 107%N 108%N None) ∈ tr) as Hin
    by (vm_compute; in_trace).
  destruct (Start_publishes_rpc env_ok sample_node World0 _ _ _ _ _ _ _ _ Hin)
    as (Hl & Hh & Hapis & _ & _ & _ & Hsrv & _).
  split; [exact Hin|]. split; [exact Hl|]. split; [exact Hh|].
  split; [exact Hapis|exact Hsrv].
Defined.

Lemma Start_uses_one_key_witness :
  let tr := trace_of (Start env_ok sample_node) World0 in
  (∀ h c, NodeKey_ret env_ok h c = 5%N)
  ∧ PrivateKey (P2P (config (Start env_ok sample_node World0).1)) = 5%N
  ∧ (SecStore_AddKey 13%N (FromECDSA env_ok 5%N) ↦ VUnit) ∈ tr.
Proof.
  intros tr.
  assert (∀ h c, NodeKey_ret env_ok h c = 5%N) as Hk
    by (intros h c; reflexivity).
  destruct (Start_uses_one_key env_ok sample_node World0 5%N Hk)
    as (Hp & Hadd & _).
  split; [exact Hk|]. split; [exact Hp|exact Hadd].
Defined.

Lemma startHTTP_stopHTTP_roundtrip_witness :
  let r1 := startHTTP env_ok sample_node "localhost:9009" [] [] [] [] 0
              World0 in
  let r2 := stopHTTP env_ok r1.1.1 r1.2 in
  (StartHTTPEndpoint "localhost:9009" [] [] [] [] 0
   ↦ VHttp 100%N 101%N None) ∈ emitted World0 r1.2
  ∧ r2.1 = sample_node
  ∧ emitted r1.2 r2.2 = closing_events env_ok sample_node 100%N 101%N.
Proof.
  intros r1 r2.
  assert ((StartHTTPEndpoint "localhost:9009" [] [] [] [] 0
           ↦ VHttp 100%N 101%N None) ∈ emitted World0 r1.2) as Hin
    by (vm_compute; in_trace).
  destruct (startHTTP_stopHTTP_roundtrip env_ok sample_node "localhost:9009"
              [] [] [] [] 0%N World0 eq_refl eq_refl) as (Hback & Hclose & _).
  split; [exact Hin|]. split; [exact Hback|exact (Hclose _ _ Hin)].
Defined.

Lemma startHTTP_twice_keeps_second_witness :
  let r1 := startHTTP env_ok sample_node "localhost:9009" [] [] [] [] 0
              World0 in
  let r2 := startHTTP env_ok r1.1.1 "localhost:9010" [] [] [] [] 0 r1.2 in
  let r3 := stopHTTP env_ok r2.1.1 r2.2 in
  httpListener r2.1.1 = 102%N
  ∧ emitted r2.2 r3.2 = closing_events env_ok sample_node 102%N 103%N
  ∧ (Listener_Close 100%N ↦ VUnit) ∉ emitted World0 r3.2.
Proof.
  intros r1 r2 r3.
  assert ((StartHTTPEndpoint "localhost:9009" [] [] [] [] 0
           ↦ VHttp 100%N 101%N None) ∈ emitted World0 r1.2) as Hin1
    by (vm_compute; in_trace).
  assert ((StartHTTPEndpoint "localhost:9010" [] [] [] [] 0
           ↦ VHttp 102%N 103%N None) ∈ emitted r1.2 r2.2) as Hin2
    by (vm_compute; in_trace).
  destruct (startHTTP_twice_keeps_second env_ok sample_node _ _ _ _ _ _
              _ _ _ _ _ _ World0 _ _ _ _ Hin1 Hin2)
    as (_ & _ & Hl & _ & _ & Hclose & Hleak).
  split; [exact Hl|]. split; [exact Hclose|exact Hleak].
Defined.

Lemma NewNode_then_Start_wiring_witness :
  let built := trace_of (NewNode env_ok sample_config) World0 in
  let run := trace_of (Start env_ok built_node) World1 in
  (InitializeChain 109%N ↦ VRefErr 6%N None) ∈ run
  ∧ ∃ chain eng cer,
      (ProvideApplyNewEpochFunc chain (ApplyNewEpoch cer) ↦ VUnit) ∈ run
      ∧ (Engine_Start eng ↦ VUnit) ∈ run
      ∧ ∃ pm_ props vts app tx sec dl bus_ flp db,
          (NewEngine chain pm_ props 1%N app vts tx sec dl ↦ VRef eng) ∈ built
          ∧ (NewValidationCeremony app bus_ flp pm_ sec db tx chain dl
             ↦ VRef cer) ∈ built.
Proof.
  intros built run.
  assert ((InitializeChain 109%N ↦ VRefErr 6%N None) ∈ run) as Hin
    by (vm_compute; in_trace).
  split; [exact Hin|].
  destruct (NewNode_then_Start_wiring env_ok sample_config World0 built_node
              6%N NewNode_ok_sample Hin)
    as (chain & pm_ & eng & cer & props & vts & app & tx & sec & dl & bus_
        & flp & db & fkp & Heng & Hcer & _ & _ & _ & _ & Hhook & Hstart & _).
  exists chain, eng, cer. split; [exact Hhook|]. split; [exact Hstart|].
  exists pm_, props, vts, app, tx, sec, dl, bus_, flp, db.
  split; [exact Heng|exact Hcer].
Defined.

Lemma WaitForStop_never_returns_witness :
  (NewNode env_ok sample_config World0).1 = inr built_node
  ∧ WaitForStop (fun _ => true) built_node = BlocksForever
  ∧ WaitForStop (fun _ => true) (Start env_ok built_node World1).1
    = BlocksForever.
Proof.
  split; [exact NewNode_ok_sample|].
  destruct (WaitForStop_never_returns env_ok sample_config World0 built_node
              (fun _ => true) NewNode_ok_sample) as (_ & Hnode & Hstarted).
  split; [exact Hnode|]. exact (proj2 (Hstarted env_ok World1)).
Defined.
